(** * Browser-automation scripts of jules-scratch/verification

    The repository holds two Playwright scripts, [add_client.py] and
    [verify_multi_part_devolution.py].  Each defines one function [run] that
    drives a single browser with a single page through a fixed list of calls
    to the automation library, inside a [try ... finally] statement.

    The library and the web application are external.  They are modelled as
    an environment that decides, for every call the script makes, whether the
    call raises and which page events (console messages, dialogs) the page
    emits while the call is in progress.  The scripts themselves are written
    in a small state-and-exception monad whose state holds the registered
    page listeners and the log of calls made so far.  Each file ends by
    calling [run] once, inside [with sync_playwright() as playwright]; an
    execution is therefore [run] applied to the initial state.

    Strings are the UTF-8 bytes of the Python literals. *)

From Stdlib Require Import List String Ascii ZArith Bool Arith.
Import ListNotations.
Open Scope string_scope.

(** ** Data model *)

(** Locators are built lazily by the library and never touch the browser:
    [page.locator(css)], [x.get_by_label(text)] and
    [x.get_by_role(role, name=...)], where [x] is the page or another
    locator. *)
Inductive locator : Type :=
| Page
| Locator (parent : locator) (selector : string)
| GetByLabel (parent : locator) (text : string)
| GetByRole (parent : locator) (role name : string).

(** The two lambdas passed to [page.on] in add_client.py:
    [lambda msg: print(f"CONSOLE: {msg.text}")] and
    [lambda dialog: dialog.accept()]. *)
Inductive callback : Type :=
| PrintConsole
| AcceptDialog.

(** The calls into the automation library that the scripts make.  There is
    one browser and one page per script, so the receiver is left implicit. *)
Inductive op : Type :=
| Launch (headless : bool)                       (* playwright.chromium.launch *)
| NewPage                                        (* browser.new_page() *)
| On (event : string) (cb : callback)            (* page.on(event, cb) *)
| Goto (url : string)                            (* page.goto(url) *)
| ToBeVisible (target : locator)                 (* expect(l).to_be_visible() *)
| ToContainText (target : locator) (text : string) (* expect(l).to_contain_text *)
| Fill (target : locator) (value : string)       (* l.fill(value) *)
| SelectOption (target : locator) (value : string) (* l.select_option(value) *)
| Click (target : locator)                       (* l.click() *)
| WaitForTimeout (ms : Z)                        (* page.wait_for_timeout(ms) *)
| Screenshot (path : string)                     (* page.screenshot(path=...) *)
| Close.                                         (* browser.close() *)

(** Events a page emits on its own while a call is in progress. *)
Inductive page_event : Type :=
| ConsoleMessage (text : string)
| Dialog (message : string).

Definition event_name (e : page_event) : string :=
  match e with
  | ConsoleMessage _ => "console"
  | Dialog _ => "dialog"
  end.

Definition event_text (e : page_event) : string :=
  match e with
  | ConsoleMessage t => t
  | Dialog m => m
  end.

(** What a listener of the script does with an event. *)
Inductive reaction : Type :=
| Printed (line : string)
| Accepted.

Definition run_callback (cb : callback) (e : page_event) : reaction :=
  match cb with
  | PrintConsole => Printed ("CONSOLE: " ++ event_text e)
  | AcceptDialog => Accepted
  end.

(** Every listener registered under the event's name is called, in
    registration order.  An empty result means that no listener of the
    script saw the event. *)
Definition handlers_for (name : string) (ls : list (string * callback))
  : list callback :=
  map snd (filter (fun l => String.eqb (fst l) name) ls).

Definition dispatch (ls : list (string * callback)) (e : page_event)
  : list reaction :=
  map (fun cb => run_callback cb e) (handlers_for (event_name e) ls).

(** One entry of the log: the call, the page events emitted during it with
    the script's reactions, and whether the call returned normally. *)
Record call_record : Type := mkRecord {
  what : op;
  emitted : list (page_event * list reaction);
  ok : bool
}.

Record state : Type := mkState {
  listeners : list (string * callback);
  trace : list call_record
}.

Definition initial : state := mkState [] [].

(** The outside world: [raises k o] tells whether call number [k] of the
    execution, being [o], raises; [page_events k] lists what the page emits
    during call number [k]. *)
Record env : Type := mkEnv {
  raises : nat -> op -> bool;
  page_events : nat -> list page_event
}.

(** ** The monad *)

Inductive outcome (A : Type) : Type :=
| Returned (a : A)
| Raised.
Arguments Returned {A} a.
Arguments Raised {A}.

Definition M (A : Type) : Type := state -> outcome A * state.

Definition ret {A} (a : A) : M A := fun st => (Returned a, st).

Definition bind {A B} (m : M A) (f : A -> M B) : M B :=
  fun st =>
    match m st with
    | (Returned a, st1) => f a st1
    | (Raised, st1) => (Raised, st1)
    end.

(** [try: body finally: fin].  The finalizer runs on both exits of the body;
    an exception of the body is re-raised after it, and an exception of the
    finalizer itself propagates. *)
Definition try_finally {A} (body : M A) (fin : M unit) : M A :=
  fun st =>
    match body st with
    | (Returned a, st1) =>
        match fin st1 with
        | (Returned _, st2) => (Returned a, st2)
        | (Raised, st2) => (Raised, st2)
        end
    | (Raised, st1) => (Raised, snd (fin st1))
    end.

Notation "m1 ;; m2" := (bind m1 (fun _ => m2))
  (at level 61, right associativity).

Definition register (o : op) (failed : bool) (ls : list (string * callback))
  : list (string * callback) :=
  match o with
  | On ev cb => if failed then ls else (ls ++ [(ev, cb)])%list
  | _ => ls
  end.

Section Call.

Variable E : env.

(** A library call: the page events of this step are delivered to the
    listeners registered so far, the call is logged, and it either returns
    or raises as the environment decides. *)
Definition call (o : op) : M unit :=
  fun st =>
    let k := List.length (trace st) in
    let failed := raises E k o in
    let em := map (fun e => (e, dispatch (listeners st) e)) (page_events E k) in
    ((if failed then Raised else Returned tt),
     mkState (register o failed (listeners st))
             (trace st ++ [mkRecord o em (negb failed)])%list).

End Call.

Arguments call E o st : simpl never.

(** The double-quote character, for the attribute selectors. *)
Definition dq : string := String (ascii_of_nat 34) EmptyString.

(** *** add_client.py *)
Module AddClient.

Section Run.

Variable E : env.
Let call := call E.

Definition run : M unit :=
  call (Launch true) ;;
  call NewPage ;;
  call (On "console" PrintConsole) ;;
  call (On "dialog" AcceptDialog) ;;
  try_finally
    (call (Goto "http://localhost:5173/pages/cadastro-pessoas.html") ;;
     let navbar := Locator Page "#navbarNav" in
     call (ToBeVisible navbar) ;;
     call (Fill (GetByLabel Page "Nome Completo") "Test Client") ;;
     call (SelectOption (GetByLabel Page "Tipo") "Cliente") ;;
     call (Click (GetByRole Page "button" "Salvar")) ;;
     call (WaitForTimeout 2000))
    (call Close).

End Run.

End AddClient.

(** *** verify_multi_part_devolution.py *)
Module VerifyDevolution.

Section Run.

Variable E : env.
Let call := call E.

Definition run : M unit :=
  call (Launch true) ;;
  call NewPage ;;
  try_finally
    (call (Goto "http://localhost:5173/pages/cadastro-pessoas.html") ;;
     call (Fill (GetByLabel Page "Nome Completo") "Test Client") ;;
     call (SelectOption (GetByLabel Page "Tipo") "Cliente") ;;
     call (Click (GetByRole Page "button" "Salvar")) ;;
     call (WaitForTimeout 2000) ;;
     call (Goto "http://localhost:5173/pages/cadastro.html") ;;
     let navbar := Locator Page "#navbarNav" in
     call (ToBeVisible navbar) ;;
     call (Click (GetByRole Page "button" "Adicionar Peça")) ;;
     let part1 := Locator Page (".part-row[data-part-index=" ++ dq ++ "0" ++ dq ++ "]") in
     call (Fill (GetByLabel part1 "Código da Peça") "PART-001") ;;
     call (Fill (GetByLabel part1 "Quantidade") "1") ;;
     call (Fill (GetByLabel part1 "Descrição da Peça") "Part 1 Description") ;;
     let part2 := Locator Page (".part-row[data-part-index=" ++ dq ++ "1" ++ dq ++ "]") in
     call (Fill (GetByLabel part2 "Código da Peça") "PART-002") ;;
     call (Fill (GetByLabel part2 "Quantidade") "2") ;;
     call (Fill (GetByLabel part2 "Descrição da Peça") "Part 2 Description") ;;
     call (SelectOption (GetByLabel Page "Cliente") "Test Client") ;;
     call (Fill (GetByLabel Page "Requisição de Venda") "REQ-123") ;;
     call (SelectOption (GetByLabel Page "Ação na Requisição") "Alterada") ;;
     call (Fill (GetByLabel Page "Data da Venda") "2023-01-01") ;;
     call (Fill (GetByLabel Page "Data da Devolução") "2023-01-02") ;;
     call (Click (GetByRole Page "button" "Salvar Devolução")) ;;
     let success_alert := Locator Page ".alert-success" in
     call (ToBeVisible success_alert) ;;
     call (ToContainText success_alert "Devolução registrada com sucesso!") ;;
     call (Screenshot "jules-scratch/verification/multi_part_verification.png"))
    (call Close).

End Run.

End VerifyDevolution.

(** ** Observations of an execution *)

(** [run] is called once, on a fresh state. *)
Definition final (S : env -> M unit) (E : env) : state := snd (S E initial).

Definition returned {A} (r : outcome A) : bool :=
  match r with
  | Returned _ => true
  | Raised => false
  end.

(** Whether [run] returned normally. *)
Definition result (S : env -> M unit) (E : env) : bool :=
  returned (fst (S E initial)).

Definition summary (r : call_record) : op * bool := (what r, ok r).

Definition calls_of (st : state) : list (op * bool) := map summary (trace st).

(** The calls made by an execution, in order, each with its success flag. *)
Definition log (S : env -> M unit) (E : env) : list (op * bool) :=
  calls_of (final S E).

(** The listeners that a sequence of calls leaves registered. *)
Definition registered (t : list (op * bool)) : list (string * callback) :=
  flat_map (fun c => register (fst c) (negb (snd c)) []) t.

(** ** Decidable equality on calls *)

Definition locator_eq_dec (a b : locator) : {a = b} + {a <> b}.
Proof. decide equality; apply string_dec. Defined.

Definition callback_eq_dec (a b : callback) : {a = b} + {a <> b}.
Proof. decide equality. Defined.

Definition op_eq_dec (a b : op) : {a = b} + {a <> b}.
Proof.
  decide equality;
    first [ apply string_dec | apply locator_eq_dec | apply callback_eq_dec
          | apply Z.eq_dec | apply bool_dec ].
Defined.

Definition call_eq_dec (a b : op * bool) : {a = b} + {a <> b}.
Proof. decide equality; [ apply bool_dec | apply op_eq_dec ]. Defined.

Definition mem (a : op * bool) (t : list (op * bool)) : bool :=
  if in_dec call_eq_dec a t then true else false.

Definition same (a b : list (op * bool)) : bool :=
  if list_eq_dec call_eq_dec a b then true else false.

(** ** Straight-line execution *)

Section PlayDefs.

Variable E : env.

(** Make the calls of [l] in order and stop at the first one that raises;
    the flag tells whether all of them returned. *)
Fixpoint play (l : list op) (st : state) : bool * state :=
  match l with
  | [] => (true, st)
  | o :: l' =>
      match call E o st with
      | (Returned _, st1) => play l' st1
      | (Raised, st1) => (false, st1)
      end
  end.

(** A script of the shape both files have: the calls of [setup], then
    [try:] the calls of [body] [finally: browser.close()]. *)
Definition script (setup body : list op) : M unit :=
  fun st =>
    match play setup st with
    | (false, s1) => (Raised, s1)
    | (true, s1) =>
        let (b, s2) := play body s1 in
        match call E Close s2 with
        | (Returned _, s3) => ((if b then Returned tt else Raised), s3)
        | (Raised, s3) => (Raised, s3)
        end
    end.

Definition seq_then (l : list op) (k : M unit) : M unit :=
  fold_right (fun o m => call E o ;; m) k l.

End PlayDefs.

(** The calls of the two scripts, in program order: those before the [try]
    statement and those of its body. *)
Module AddClientOps.

Definition setup : list op :=
  [Launch true; NewPage; On "console" PrintConsole; On "dialog" AcceptDialog].

Definition body : list op :=
  [Goto "http://localhost:5173/pages/cadastro-pessoas.html";
   ToBeVisible (Locator Page "#navbarNav");
   Fill (GetByLabel Page "Nome Completo") "Test Client";
   SelectOption (GetByLabel Page "Tipo") "Cliente";
   Click (GetByRole Page "button" "Salvar");
   WaitForTimeout 2000].

End AddClientOps.

Module VerifyDevolutionOps.

Definition part_row (i : string) : locator :=
  Locator Page (".part-row[data-part-index=" ++ dq ++ i ++ dq ++ "]").

Definition success_alert : locator := Locator Page ".alert-success".

Definition setup : list op := [Launch true; NewPage].

Definition body : list op :=
  [Goto "http://localhost:5173/pages/cadastro-pessoas.html";
   Fill (GetByLabel Page "Nome Completo") "Test Client";
   SelectOption (GetByLabel Page "Tipo") "Cliente";
   Click (GetByRole Page "button" "Salvar");
   WaitForTimeout 2000;
   Goto "http://localhost:5173/pages/cadastro.html";
   ToBeVisible (Locator Page "#navbarNav");
   Click (GetByRole Page "button" "Adicionar Peça");
   Fill (GetByLabel (part_row "0") "Código da Peça") "PART-001";
   Fill (GetByLabel (part_row "0") "Quantidade") "1";
   Fill (GetByLabel (part_row "0") "Descrição da Peça") "Part 1 Description";
   Fill (GetByLabel (part_row "1") "Código da Peça") "PART-002";
   Fill (GetByLabel (part_row "1") "Quantidade") "2";
   Fill (GetByLabel (part_row "1") "Descrição da Peça") "Part 2 Description";
   SelectOption (GetByLabel Page "Cliente") "Test Client";
   Fill (GetByLabel Page "Requisição de Venda") "REQ-123";
   SelectOption (GetByLabel Page "Ação na Requisição") "Alterada";
   Fill (GetByLabel Page "Data da Venda") "2023-01-01";
   Fill (GetByLabel Page "Data da Devolução") "2023-01-02";
   Click (GetByRole Page "button" "Salvar Devolução");
   ToBeVisible success_alert;
   ToContainText success_alert "Devolução registrada com sucesso!";
   Screenshot "jules-scratch/verification/multi_part_verification.png"].

End VerifyDevolutionOps.

(** ** The possible logs of a script *)

Open Scope list_scope.

(** All decompositions [t = t1 ++ x :: t2] of a list. *)
Fixpoint splits {A} (t : list A) : list (list A * A * list A) :=
  match t with
  | [] => []
  | x :: t' =>
      ([], x, t') :: map (fun s => (x :: fst (fst s), snd (fst s), snd s)) (splits t')
  end.

(** The ways a straight-line list of calls can go: the flag tells whether
    every call returned. *)
Fixpoint outcomes (l : list op) : list (bool * list (op * bool)) :=
  match l with
  | [] => [(true, [])]
  | o :: l' =>
      (false, [(o, false)])
        :: map (fun r : bool * list (op * bool) => (fst r, (o, true) :: snd r))
             (outcomes l')
  end.

(** The ways a script can go: it stops in [setup], or it enters the [try]
    block and ends with [browser.close()], which may itself raise. *)
Definition runs (setup body : list op) : list (bool * list (op * bool)) :=
  flat_map
    (fun r1 : bool * list (op * bool) =>
       if fst r1
       then flat_map
              (fun r2 : bool * list (op * bool) =>
                 [(fst r2, snd r1 ++ snd r2 ++ [(Close, true)]);
                  (false, snd r1 ++ snd r2 ++ [(Close, false)])]%list)
              (outcomes body)
       else [(false, snd r1)])
    (outcomes setup).

(** In a faithful state the listeners are those the logged calls
    registered, and every logged reaction is the one of the listeners that
    were registered before that call. *)
Definition faithful (E : env) (st : state) : Prop :=
  listeners st = registered (calls_of st) /\
  forall t1 r t2,
    trace st = t1 ++ r :: t2 ->
    emitted r
    = map (fun e => (e, dispatch (registered (map summary t1)) e))
          (page_events E (List.length t1)).


(** ** Vocabulary of the properties *)

Definition salvar : op := Click (GetByRole Page "button" "Salvar").

Definition salvar_devolucao : op :=
  Click (GetByRole Page "button" "Salvar Devolução").

Definition adicionar_peca : op :=
  Click (GetByRole Page "button" "Adicionar Peça").

Definition navbar : locator := Locator Page "#navbarNav".

Definition is_goto (o : op) : bool :=
  match o with Goto _ => true | _ => false end.

(** Filling a text field or choosing an option of a select field. *)
Definition is_input (o : op) : bool :=
  match o with Fill _ _ | SelectOption _ _ => true | _ => false end.

(** The clicks that submit a form. *)
Definition is_submit (o : op) : bool :=
  if op_eq_dec o salvar then true
  else if op_eq_dec o salvar_devolucao then true else false.

Definition is_assertion (o : op) : bool :=
  match o with ToBeVisible _ | ToContainText _ _ => true | _ => false end.

Definition is_screenshot (o : op) : bool :=
  match o with Screenshot _ => true | _ => false end.

Definition is_close (o : op) : bool :=
  match o with Close => true | _ => false end.

Definition is_on (o : op) : bool :=
  match o with On _ _ => true | _ => false end.

(** The element a call acts on, if any. *)
Definition target_of (o : op) : option locator :=
  match o with
  | ToBeVisible l | ToContainText l _ | Fill l _ | SelectOption l _ | Click l =>
      Some l
  | _ => None
  end.

(** The file a call writes, if any. *)
Definition writes_file (o : op) : option string :=
  match o with Screenshot p => Some p | _ => None end.

(** The calls that wait: [Some (Some l)] when the wait is for a condition on
    element [l], [Some None] when it is tied to no element. *)
Definition wait_of (o : op) : option (option locator) :=
  match o with
  | ToBeVisible l | ToContainText l _ => Some (Some l)
  | WaitForTimeout _ => Some None
  | _ => None
  end.

Definition untied_wait (o : op) : bool :=
  match wait_of o with Some None => true | _ => false end.

(** A fill of a field looked up inside a row located by a CSS selector. *)
Definition is_part_fill (o : op) : bool :=
  match o with
  | Fill (GetByLabel (Locator Page _) _) _ => true
  | _ => false
  end.

(** Every statement before the [try] block returned normally. *)
Definition setup_ok (setup : list op) (t : list (op * bool)) : Prop :=
  forall o, In o setup -> In (o, true) t.

Definition setup_okb (setup : list op) (t : list (op * bool)) : bool :=
  forallb (fun o => mem (o, true) t) setup.

(** The log ends with [browser.close()], called once. *)
Definition ends_with_close (t : list (op * bool)) : bool :=
  match rev t with
  | (Close, _) :: t' => forallb (fun c => negb (is_close (fst c))) t'
  | _ => false
  end.

(** *** Sample environments *)

(** Nothing raises and the page emits nothing. *)
Definition all_ok : env := mkEnv (fun _ _ => false) (fun _ => []).

(** Call number [n] raises. *)
Definition fails_at (n : nat) : env :=
  mkEnv (fun k _ => Nat.eqb k n) (fun _ => []).

(** Nothing raises and the page opens a dialog during call number [n]. *)
Definition dialog_at (n : nat) (message : string) : env :=
  mkEnv (fun _ _ => false)
        (fun k => if Nat.eqb k n then [Dialog message] else []).

Definition same_callbacks (a b : list callback) : bool :=
  if list_eq_dec callback_eq_dec a b then true else false.

(** No listener at all is registered by the calls of [t]. *)
Definition registers_nothing (t : list (op * bool)) : bool :=
  match registered t with [] => true | _ => false end.

Definition listener_eq_dec (a b : string * callback) : {a = b} + {a <> b}.
Proof. decide equality; [ apply callback_eq_dec | apply string_dec ]. Defined.

Definition same_listeners (a b : list (string * callback)) : bool :=
  if list_eq_dec listener_eq_dec a b then true else false.

Definition op_eqb (a b : op) : bool := if op_eq_dec a b then true else false.

Definition call_eqb (a b : op * bool) : bool :=
  if call_eq_dec a b then true else false.

Definition same_ops (a b : list op) : bool :=
  if list_eq_dec op_eq_dec a b then true else false.

(** No call is made twice. *)
Definition no_repeat (l : list op) : bool := same_ops (nodup op_eq_dec l) l.

(** The log ends with the call [a]. *)
Definition ends_with (a : op * bool) (t : list (op * bool)) : bool :=
  match rev t with
  | c :: _ => call_eqb c a
  | [] => false
  end.

Definition all_succeed (t : list (op * bool)) : Prop :=
  forall c, In c t -> snd c = true.

(** The four ways of reaching an element: a field by its label, the
    navigation element by its id, a button by its visible label, the success
    message by its CSS class. *)
Definition plain_selector (l : locator) : Prop :=
  (exists text, l = GetByLabel Page text)
  \/ l = Locator Page "#navbarNav"
  \/ (exists name, l = GetByRole Page "button" name)
  \/ l = Locator Page ".alert-success".

(** A field looked up by its label inside part row 0 or 1, the row being
    located by CSS class and attribute. *)
Definition part_field_selector (l : locator) : Prop :=
  exists i text,
    (i = "0" \/ i = "1")
    /\ l = GetByLabel (VerifyDevolutionOps.part_row i) text.

(** A wait tied to no element is the 2000 ms pause, comes right after the
    successful click on "Salvar", and is the only such wait of the log. *)
Definition fixed_wait_check (t1 : list (op * bool)) (x : op * bool)
           (t2 : list (op * bool)) : bool :=
  implb (untied_wait (fst x))
        (op_eqb (fst x) (WaitForTimeout 2000)
         && ends_with (salvar, true) t1
         && forallb (fun c => negb (untied_wait (fst c))) (t1 ++ t2)).

(** An assertion on the success message. *)
Definition is_banner_check (o : op) : bool :=
  match o with
  | ToBeVisible l | ToContainText l _ =>
      if locator_eq_dec l VerifyDevolutionOps.success_alert then true else false
  | _ => false
  end.

(** A navigation that returned normally. *)
Definition ok_goto (c : op * bool) : bool := is_goto (fst c) && snd c.

(** No form input in [t] before a navigation. *)
Definition no_input_until_goto (t : list (op * bool)) : bool :=
  forallb (fun s => implb (is_input (fst (snd (fst s))))
                          (existsb ok_goto (fst (fst s))))
          (splits t).

(** The order constraints on a call [x] made after [t1] and before [t2]. *)
Definition order_check (t1 : list (op * bool)) (x : op * bool)
           (t2 : list (op * bool)) : bool :=
  implb (is_goto (fst x)) (mem (Launch true, true) t1 && mem (NewPage, true) t1)
  && implb (is_input (fst x)) (existsb ok_goto t1)
  && implb (is_submit (fst x)) (no_input_until_goto t2)
  && implb (is_assertion (fst x))
           (if is_banner_check (fst x)
            then mem (salvar_devolucao, true) t1
            else op_eqb (fst x) (ToBeVisible navbar)
                 && match rev t1 with c :: _ => ok_goto c | [] => false end)
  && implb (is_screenshot (fst x)) (mem (salvar_devolucao, true) t1)
  && implb (is_close (fst x)) (match t2 with [] => true | _ => false end).

(** *** The devolution form *)

Definition is_add_part (c : op * bool) : bool := op_eqb (fst c) adicionar_peca.

(** The six part fields, filled in this order. *)
Definition part_fills : list (op * bool) :=
  [(Fill (GetByLabel (VerifyDevolutionOps.part_row "0") "Código da Peça") "PART-001", true);
   (Fill (GetByLabel (VerifyDevolutionOps.part_row "0") "Quantidade") "1", true);
   (Fill (GetByLabel (VerifyDevolutionOps.part_row "0") "Descrição da Peça")
         "Part 1 Description", true);
   (Fill (GetByLabel (VerifyDevolutionOps.part_row "1") "Código da Peça") "PART-002", true);
   (Fill (GetByLabel (VerifyDevolutionOps.part_row "1") "Quantidade") "2", true);
   (Fill (GetByLabel (VerifyDevolutionOps.part_row "1") "Descrição da Peça")
         "Part 2 Description", true)].

Definition part_rows_check (t1 : list (op * bool)) (x : op * bool)
           (t2 : list (op * bool)) : bool :=
  implb (is_part_fill (fst x)) (mem (adicionar_peca, true) t1)
  && implb (op_eqb (fst x) salvar_devolucao)
           (same (filter is_add_part t1) [(adicionar_peca, true)]
            && same (filter (fun c => is_part_fill (fst c)) t1) part_fills
            && forallb (fun c => negb (is_add_part c) && negb (is_part_fill (fst c))) t2).

Definition screenshot_path : string :=
  "jules-scratch/verification/multi_part_verification.png".

Definition banner_text : string := "Devolução registrada com sucesso!".

Definition banner_visible : op := ToBeVisible VerifyDevolutionOps.success_alert.

Definition banner_has_text : op :=
  ToContainText VerifyDevolutionOps.success_alert banner_text.

Definition screenshot_check (t1 : list (op * bool)) (x : op * bool)
           (t2 : list (op * bool)) : bool :=
  implb (is_screenshot (fst x))
        (op_eqb (fst x) (Screenshot screenshot_path)
         && forallb snd t1
         && mem (banner_visible, true) t1
         && mem (banner_has_text, true) t1
         && forallb (fun c => negb (is_screenshot (fst c))) (t1 ++ t2)).

(** A call other than the screenshot and the final close raised. *)
Definition earlier_step_raised (t : list (op * bool)) : bool :=
  existsb (fun c => negb (snd c) && negb (is_screenshot (fst c))
                    && negb (is_close (fst c))) t.

Definition no_screenshot (t : list (op * bool)) : bool :=
  forallb (fun c => negb (is_screenshot (fst c))) t.

Definition writes_only (p : string) (c : op * bool) : bool :=
  match writes_file (fst c) with
  | Some q => String.eqb q p
  | None => true
  end.

Definition writes_nothing (c : op * bool) : bool :=
  match writes_file (fst c) with
  | Some _ => false
  | None => true
  end.

(** The literal values the devolution form is filled with (part codes and
    quantities, client, request and the two dates). *)
Definition devolution_inputs : list (op * bool) :=
  [(Fill (GetByLabel (VerifyDevolutionOps.part_row "0") "Código da Peça") "PART-001", true);
   (Fill (GetByLabel (VerifyDevolutionOps.part_row "0") "Quantidade") "1", true);
   (Fill (GetByLabel (VerifyDevolutionOps.part_row "1") "Código da Peça") "PART-002", true);
   (Fill (GetByLabel (VerifyDevolutionOps.part_row "1") "Quantidade") "2", true);
   (SelectOption (GetByLabel Page "Cliente") "Test Client", true);
   (Fill (GetByLabel Page "Requisição de Venda") "REQ-123", true);
   (Fill (GetByLabel Page "Data da Venda") "2023-01-01", true);
   (Fill (GetByLabel Page "Data da Devolução") "2023-01-02", true)].

(** What follows the successful click on "Salvar Devolução": the
    visibility assertion and, when it passes, the text assertion. *)
Definition asserted_next (t2 : list (op * bool)) : bool :=
  match t2 with
  | (o, b1) :: t3 =>
      op_eqb o banner_visible
      && implb b1 match t3 with
                  | (o', _) :: _ => op_eqb o' banner_has_text
                  | [] => false
                  end
  | [] => false
  end.

Definition banner_check (res : bool) (t1 : list (op * bool)) (x : op * bool)
           (t2 : list (op * bool)) : bool :=
  implb (call_eqb x (salvar_devolucao, true))
        (forallb (fun a => mem a t1) devolution_inputs
         && asserted_next t2
         && implb res (mem (banner_visible, true) t2
                       && mem (banner_has_text, true) t2)).

(** *** Further vocabulary *)

(** Nothing raises and the page logs [text] to the console during call
    number [n]. *)
Definition console_at (n : nat) (text : string) : env :=
  mkEnv (fun _ _ => false)
        (fun k => if Nat.eqb k n then [ConsoleMessage text] else []).

(** Some call of [t] is a navigation, attempted or completed. *)
Definition navigated (t : list (op * bool)) : bool :=
  existsb (fun c => is_goto (fst c)) t.

(** The listeners in force after the calls [t1], during the call [x]: at
    most the console printer and the dialog accepter, the printer being
    there once registered and from the first navigation on. *)
Definition console_check (t1 : list (op * bool)) (x : op * bool)
           (t2 : list (op * bool)) : bool :=
  (same_callbacks (handlers_for "console" (registered t1)) []
   || same_callbacks (handlers_for "console" (registered t1)) [PrintConsole])
  && (same_callbacks (handlers_for "dialog" (registered t1)) []
      || same_callbacks (handlers_for "dialog" (registered t1)) [AcceptDialog])
  && implb (mem (On "console" PrintConsole, true) t1 || navigated (t1 ++ [x]))
           (same_callbacks (handlers_for "console" (registered t1)) [PrintConsole]).

(** After a call that raised: the final close has nothing after it; any
    other call had only successes before it and at most the final close
    after it. *)
Definition fail_fast_check (t1 : list (op * bool)) (x : op * bool)
           (t2 : list (op * bool)) : bool :=
  implb (negb (snd x))
        (if is_close (fst x)
         then match t2 with [] => true | _ => false end
         else forallb snd t1
              && match t2 with
                 | [] => true
                 | [(Close, _)] => true
                 | _ => false
                 end).

Definition is_launch (o : op) : bool :=
  match o with Launch _ => true | _ => false end.

Definition is_new_page (o : op) : bool :=
  match o with NewPage => true | _ => false end.

(** The log starts with the launch of a headless browser, which is the only
    launch; if it returned, the creation of the page comes next and is the
    only one; if it raised, nothing else was called. *)
Definition starts_headless (t : list (op * bool)) : bool :=
  match t with
  | (Launch true, b) :: t' =>
      forallb (fun c => negb (is_launch (fst c))) t'
      && (if b
          then match t' with
               | (NewPage, _) :: t'' =>
                   forallb (fun c => negb (is_new_page (fst c))) t''
               | _ => false
               end
          else match t' with [] => true | _ => false end)
  | _ => false
  end.

Definition pages_root : string := "http://localhost:5173/pages/".

Definition client_page : string :=
  "http://localhost:5173/pages/cadastro-pessoas.html".

Definition devolution_page : string :=
  "http://localhost:5173/pages/cadastro.html".

(** The inputs of the client form. *)
Definition client_form : list (op * bool) :=
  [(Fill (GetByLabel Page "Nome Completo") "Test Client", true);
   (SelectOption (GetByLabel Page "Tipo") "Cliente", true)].

(** The inputs of the devolution form, in the order they are made. *)
Definition devolution_form : list (op * bool) :=
  part_fills
  ++ [(SelectOption (GetByLabel Page "Cliente") "Test Client", true);
      (Fill (GetByLabel Page "Requisição de Venda") "REQ-123", true);
      (SelectOption (GetByLabel Page "Ação na Requisição") "Alterada", true);
      (Fill (GetByLabel Page "Data da Venda") "2023-01-01", true);
      (Fill (GetByLabel Page "Data da Devolução") "2023-01-02", true)].

Definition inputs_of (t : list (op * bool)) : list (op * bool) :=
  filter (fun c => is_input (fst c)) t.

(** The value typed into the field with the given label, if the call is
    such a fill. *)
Definition filled_with (label : string) (o : op) : option string :=
  match o with
  | Fill (GetByLabel Page l) v => if String.eqb l label then Some v else None
  | _ => None
  end.

(** The option chosen in the select field with the given label. *)
Definition selected_in (label : string) (o : op) : option string :=
  match o with
  | SelectOption (GetByLabel Page l) v =>
      if String.eqb l label then Some v else None
  | _ => None
  end.

(** The log starts with the launch of one headless browser; a launch that
    raised ends the execution, one that returned is followed by the creation
    of the only page. *)
Definition headless_start (t : list (op * bool)) : Prop :=
  exists b t',
    t = (Launch true, b) :: t'
    /\ (forall c, In c t' -> is_launch (fst c) = false)
    /\ (b = false -> t' = [])
    /\ (b = true ->
        exists b' t'',
          t' = (NewPage, b') :: t''
          /\ forall c, In c t'' -> is_new_page (fst c) = false).

Definition goes_to (urls : list string) (c : op * bool) : bool :=
  match fst c with
  | Goto u => existsb (String.eqb u) urls
  | _ => true
  end.

(** The devolution page is opened only once the client form has been
    submitted and the pause has elapsed. *)
Definition devolution_page_check (t1 : list (op * bool)) (x : op * bool)
           (t2 : list (op * bool)) : bool :=
  implb (op_eqb (fst x) (Goto devolution_page))
        (mem (salvar, true) t1
         && ends_with (WaitForTimeout 2000, true) t1
         && same (inputs_of t1) client_form).

Definition client_form_check (t1 : list (op * bool)) (x : op * bool)
           (t2 : list (op * bool)) : bool :=
  implb (op_eqb (fst x) salvar) (same (inputs_of t1) client_form).

Definition devolution_form_check (t1 : list (op * bool)) (x : op * bool)
           (t2 : list (op * bool)) : bool :=
  implb (op_eqb (fst x) salvar_devolucao)
        (same (inputs_of t1) (client_form ++ devolution_form)
         && forallb (fun c => negb (is_input (fst c))) t2).

(** The client chosen in the devolution form is the one typed into the
    client form. *)
Definition same_client (t : list (op * bool)) : bool :=
  forallb
    (fun c =>
       forallb
         (fun d =>
            match filled_with "Nome Completo" (fst c),
                  selected_in "Cliente" (fst d) with
            | Some v, Some w => String.eqb v w
            | _, _ => true
            end)
         t)
    t.

(** Acting on an element of a form: an input or a click. *)
Definition is_interaction (o : op) : bool :=
  match o with
  | Fill _ _ | SelectOption _ _ | Click _ => true
  | _ => false
  end.

(** An interaction made once [required] holds of the calls before it comes
    after the successful assertion that the navigation bar is visible. *)
Definition menu_check (required : list (op * bool) -> bool)
           (t1 : list (op * bool)) (x : op * bool) (t2 : list (op * bool))
  : bool :=
  implb (is_interaction (fst x) && required t1)
        (mem (ToBeVisible navbar, true) t1).

(** *** Failures before the [try] block *)

Definition in_ops (o : op) (l : list op) : bool :=
  if in_dec op_eq_dec o l then true else false.

(** Some statement before the [try] block raised. *)
Definition setup_raised (setup : list op) (t : list (op * bool)) : bool :=
  existsb (fun o => mem (o, false) t) setup.

Definition no_close (t : list (op * bool)) : bool :=
  forallb (fun c => negb (is_close (fst c))) t.

(** A call of [setup] that raised is the last call; a call of [body] that
    raised is followed by the final close and nothing else. *)
Definition fail_place_check (setup body : list op) (t1 : list (op * bool))
           (x : op * bool) (t2 : list (op * bool)) : bool :=
  implb (negb (snd x))
        (implb (in_ops (fst x) setup) match t2 with [] => true | _ => false end
         && implb (in_ops (fst x) body)
                  match t2 with [(Close, _)] => true | _ => false end).
(** * Properties

    ** Straight-line execution *)

Section Play.

Variable E : env.

Local Abbreviation play := (play E).
Local Abbreviation script := (script E).
Local Abbreviation seq_then := (seq_then E).

Lemma play_cons o l st :
  play (o :: l) st =
  match call E o st with
  | (Returned _, st1) => play l st1
  | (Raised, st1) => (false, st1)
  end.
Proof. reflexivity. Qed.

Lemma seq_then_play l k st :
  seq_then l k st =
  match play l st with
  | (true, s1) => k s1
  | (false, s1) => (Raised, s1)
  end.
Proof.
  revert st. induction l as [|o l IH]; intros st; [reflexivity|].
  change (seq_then (o :: l) k st) with (bind (call E o) (fun _ => seq_then l k) st).
  unfold bind. rewrite play_cons.
  destruct (call E o st) as [[[]|] st1]; [apply IH | reflexivity].
Qed.

Lemma play_app l1 l2 st :
  play (l1 ++ l2) st =
  match play l1 st with
  | (true, s1) => play l2 s1
  | (false, s1) => (false, s1)
  end.
Proof.
  revert st. induction l1 as [|o l1 IH]; intros st; [reflexivity|].
  rewrite <- app_comm_cons, !play_cons.
  destruct (call E o st) as [[[]|] st1]; [apply IH | reflexivity].
Qed.

Lemma call_play o st :
  call E o st =
  match play [o] st with
  | (true, s1) => (Returned tt, s1)
  | (false, s1) => (Raised, s1)
  end.
Proof.
  rewrite play_cons. unfold call. destruct (raises E _ o); reflexivity.
Qed.

(** The normal form of a script written with [;;] and [try_finally]. *)
Lemma script_normal_form setup body last st :
  seq_then setup (try_finally (seq_then body (call E last)) (call E Close)) st
  = script setup (body ++ [last]) st.
Proof.
  rewrite seq_then_play. unfold script.
  destruct (play setup st) as [[] s1]; [|reflexivity].
  unfold try_finally. rewrite seq_then_play, play_app.
  destruct (play body s1) as [[] s2].
  - rewrite (call_play last s2).
    destruct (play [last] s2) as [[] s3];
      destruct (call E Close s3) as [[[]|] s4]; reflexivity.
  - destruct (call E Close s2) as [[[]|] s4]; reflexivity.
Qed.

End Play.

Lemma add_client_script E st :
  AddClient.run E st = script E AddClientOps.setup AddClientOps.body st.
Proof.
  exact (script_normal_form E AddClientOps.setup
           (removelast AddClientOps.body) (WaitForTimeout 2000) st).
Qed.

Lemma verify_devolution_script E st :
  VerifyDevolution.run E st
  = script E VerifyDevolutionOps.setup VerifyDevolutionOps.body st.
Proof.
  exact (script_normal_form E VerifyDevolutionOps.setup
           (removelast VerifyDevolutionOps.body)
           (Screenshot "jules-scratch/verification/multi_part_verification.png")
           st).
Qed.

(** ** The possible logs of a script *)

Lemma mem_In a t : mem a t = true <-> In a t.
Proof. unfold mem. destruct (in_dec call_eq_dec a t); split; intros; auto; discriminate. Qed.

Lemma same_eq a b : same a b = true <-> a = b.
Proof. unfold same. destruct (list_eq_dec call_eq_dec a b); split; intros; auto; discriminate. Qed.

Lemma splits_complete {A} (t1 : list A) x t2 :
  In (t1, x, t2) (splits (t1 ++ x :: t2)).
Proof.
  induction t1 as [|a t1 IH]; simpl; [now left|].
  right. apply in_map_iff. exists (t1, x, t2). split; [reflexivity | exact IH].
Qed.

Section Shape.

Variable E : env.

Lemma call_calls o st :
  calls_of (snd (call E o st))
  = calls_of st ++ [(o, returned (fst (call E o st)))].
Proof.
  unfold call, calls_of. simpl. rewrite map_app. simpl. unfold summary at 2. simpl.
  destruct (raises E _ o); reflexivity.
Qed.

Lemma play_outcomes l st :
  exists t, In (fst (play E l st), t) (outcomes l)
            /\ calls_of (snd (play E l st)) = calls_of st ++ t.
Proof.
  revert st. induction l as [|o l IH]; intros st.
  - exists []. simpl. rewrite app_nil_r. auto.
  - rewrite play_cons. pose proof (call_calls o st) as Hc.
    destruct (call E o st) as [[[]|] st1]; simpl in Hc.
    + destruct (IH st1) as (t & Hin & Ht).
      exists ((o, true) :: t). split.
      * simpl. right. apply in_map_iff. exists (fst (play E l st1), t). auto.
      * rewrite Ht, Hc, <- app_assoc. reflexivity.
    + exists [(o, false)]. simpl. auto.
Qed.

Lemma script_runs setup body st :
  exists t, In (returned (fst (script E setup body st)), t) (runs setup body)
            /\ calls_of (snd (script E setup body st)) = calls_of st ++ t.
Proof.
  unfold script, runs.
  destruct (play_outcomes setup st) as (t1 & Hin1 & Ht1).
  destruct (play E setup st) as [[] s1]; simpl in Hin1, Ht1.
  - destruct (play_outcomes body s1) as (t2 & Hin2 & Ht2).
    destruct (play E body s1) as [b s2]; simpl in Hin2, Ht2.
    pose proof (call_calls Close s2) as Hc.
    destruct (call E Close s2) as [[[]|] s3]; simpl in Hc.
    + exists (t1 ++ t2 ++ [(Close, true)]). split.
      * apply in_flat_map. exists (true, t1). split; [exact Hin1|].
        simpl. apply in_flat_map. exists (b, t2). split; [exact Hin2|].
        simpl. left. destruct b; reflexivity.
      * simpl. rewrite Hc, Ht2, Ht1, <- !app_assoc. reflexivity.
    + exists (t1 ++ t2 ++ [(Close, false)]). split.
      * apply in_flat_map. exists (true, t1). split; [exact Hin1|].
        simpl. apply in_flat_map. exists (b, t2). split; [exact Hin2|].
        simpl. right. left. reflexivity.
      * simpl. rewrite Hc, Ht2, Ht1, <- !app_assoc. reflexivity.
  - exists t1. split; [|exact Ht1].
    apply in_flat_map. exists (false, t1). split; [exact Hin1|]. simpl. auto.
Qed.

End Shape.

(** ** The log is faithful to the listeners *)

Lemma register_app o failed ls :
  register o failed ls = ls ++ register o failed [].
Proof.
  destruct o; simpl; rewrite ?app_nil_r; try reflexivity.
  destruct failed; simpl; rewrite ?app_nil_r; reflexivity.
Qed.

Lemma registered_app t1 t2 : registered (t1 ++ t2) = registered t1 ++ registered t2.
Proof. unfold registered. apply flat_map_app. Qed.

Section Faithful.

Variable E : env.

Lemma faithful_initial : faithful E initial.
Proof.
  split; [reflexivity|]. intros [|a t1] r t2 H; discriminate H.
Qed.

Lemma faithful_call o st : faithful E st -> faithful E (snd (call E o st)).
Proof.
  intros [Hl Hr]. split.
  - rewrite call_calls, registered_app, <- Hl. unfold call. simpl.
    rewrite register_app. f_equal. unfold registered. simpl.
    rewrite app_nil_r. destruct (raises E _ o); reflexivity.
  - intros t1 r t2 H. unfold call in H. simpl in H.
    destruct (exists_last (l := r :: t2)) as (t2' & z & Hz); [discriminate|].
    destruct t2' as [|r' t2'].
    + simpl in Hz. injection Hz as -> ->.
      apply app_inj_tail in H. destruct H as [<- <-]. simpl.
      rewrite Hl. reflexivity.
    + simpl in Hz. injection Hz as -> ->.
      change (t1 ++ r' :: t2' ++ [z]) with (t1 ++ (r' :: t2') ++ [z]) in H.
      rewrite app_assoc in H. apply app_inj_tail in H. destruct H as [H _].
      apply (Hr _ _ _ H).
Qed.

Lemma faithful_play l st : faithful E st -> faithful E (snd (play E l st)).
Proof.
  revert st. induction l as [|o l IH]; intros st H; [exact H|].
  rewrite play_cons. pose proof (faithful_call o st H) as Hc.
  destruct (call E o st) as [[[]|] st1]; simpl in Hc; [apply IH|]; exact Hc.
Qed.

Lemma faithful_script setup body st :
  faithful E st -> faithful E (snd (script E setup body st)).
Proof.
  intros H. unfold script.
  pose proof (faithful_play setup st H) as H1.
  destruct (play E setup st) as [[] s1]; simpl in H1; [|exact H1].
  pose proof (faithful_play body s1 H1) as H2.
  destruct (play E body s1) as [b s2]; simpl in H2.
  pose proof (faithful_call Close s2 H2) as H3.
  destruct (call E Close s2) as [[[]|] s3]; exact H3.
Qed.

End Faithful.

(** ** Reasoning about every execution of a script *)

Section Runs.

Variable S : env -> M unit.
Variables setup body : list op.
Hypothesis S_script : forall E st, S E st = script E setup body st.

Lemma in_runs E : In (result S E, log S E) (runs setup body).
Proof.
  unfold result, log, final. rewrite S_script.
  destruct (script_runs E setup body initial) as (t & Hin & Ht).
  rewrite Ht. exact Hin.
Qed.

(** A decidable property of the outcome and the log holds of every
    execution as soon as it holds of each possible run. *)
Lemma every_run (P : bool -> list (op * bool) -> bool) :
  forallb (fun r => P (fst r) (snd r)) (runs setup body) = true ->
  forall E, P (result S E) (log S E) = true.
Proof.
  intros H E. rewrite forallb_forall in H. apply (H _ (in_runs E)).
Qed.

(** The same for a property of a call in its context. *)
Lemma every_call (P : bool -> list (op * bool) -> op * bool -> list (op * bool) -> bool) :
  forallb (fun r => forallb (fun s => P (fst r) (fst (fst s)) (snd (fst s)) (snd s))
                            (splits (snd r)))
          (runs setup body) = true ->
  forall E t1 x t2, log S E = t1 ++ x :: t2 -> P (result S E) t1 x t2 = true.
Proof.
  intros H E t1 x t2 Hlog. rewrite forallb_forall in H.
  specialize (H _ (in_runs E)). simpl in H. rewrite forallb_forall in H.
  rewrite Hlog in H. apply (H _ (splits_complete t1 x t2)).
Qed.

Lemma final_faithful E : faithful E (final S E).
Proof.
  unfold final. rewrite S_script. apply faithful_script, faithful_initial.
Qed.

(** What the listeners did with the events of a logged call. *)
Lemma reactions E t1 r t2 e rs :
  trace (final S E) = t1 ++ r :: t2 ->
  In (e, rs) (emitted r) ->
  rs = dispatch (registered (map summary t1)) e.
Proof.
  intros Ht Hin. destruct (final_faithful E) as [_ H].
  rewrite (H _ _ _ Ht) in Hin. apply in_map_iff in Hin.
  destruct Hin as (e' & Heq & _). injection Heq as <- <-. reflexivity.
Qed.

Lemma log_split E t1 r t2 :
  trace (final S E) = t1 ++ r :: t2 ->
  log S E = map summary t1 ++ summary r :: map summary t2.
Proof.
  intros H. unfold log, calls_of. rewrite H, map_app. reflexivity.
Qed.

End Runs.


(** ** The final [browser.close()] *)

Lemma setup_okb_true setup t : setup_ok setup t -> setup_okb setup t = true.
Proof.
  intros H. apply forallb_forall. intros o Ho. apply mem_In, H, Ho.
Qed.

Lemma ends_with_close_spec t :
  ends_with_close t = true ->
  exists t' b, t = t' ++ [(Close, b)] /\ forall c, In c t' -> fst c <> Close.
Proof.
  unfold ends_with_close. intros H.
  destruct (rev t) as [|[o b] r] eqn:Hr; [discriminate|].
  destruct o; try discriminate.
  exists (rev r), b. split.
  - rewrite <- (rev_involutive t), Hr. reflexivity.
  - intros c Hc. apply in_rev in Hc. rewrite forallb_forall in H.
    specialize (H c Hc). destruct (fst c); simpl in H; congruence.
Qed.

Section CloseLast.

Variable S : env -> M unit.
Variables setup body : list op.
Hypothesis S_script : forall E st, S E st = script E setup body st.
Hypothesis checked :
  forallb (fun r => implb (setup_okb setup (snd r)) (ends_with_close (snd r)))
          (runs setup body) = true.

(** Once the [try] block is entered, [browser.close()] is called exactly
    once and is the last call of the execution. *)
Lemma close_is_last E :
  setup_ok setup (log S E) ->
  exists t b, log S E = t ++ [(Close, b)] /\ forall c, In c t -> fst c <> Close.
Proof.
  intros H. apply ends_with_close_spec.
  pose proof (every_run S setup body S_script
                (fun _ t => implb (setup_okb setup t) (ends_with_close t))
                checked E) as P.
  simpl in P. rewrite (setup_okb_true _ _ H) in P. exact P.
Qed.

End CloseLast.

Lemma add_client_close_is_last E :
  setup_ok AddClientOps.setup (log AddClient.run E) ->
  exists t b, log AddClient.run E = t ++ [(Close, b)]
              /\ forall c, In c t -> fst c <> Close.
Proof.
  apply (close_is_last _ _ _ add_client_script). vm_compute. reflexivity.
Qed.

Lemma verify_devolution_close_is_last E :
  setup_ok VerifyDevolutionOps.setup (log VerifyDevolution.run E) ->
  exists t b, log VerifyDevolution.run E = t ++ [(Close, b)]
              /\ forall c, In c t -> fst c <> Close.
Proof.
  apply (close_is_last _ _ _ verify_devolution_script). vm_compute. reflexivity.
Qed.

Section NoCloseBeforeTry.

Variable S : env -> M unit.
Variables setup body : list op.
Hypothesis S_script : forall E st, S E st = script E setup body st.
Hypothesis checked :
  forallb (fun r => implb (setup_raised setup (snd r))
                          (negb (fst r) && no_close (snd r)))
          (runs setup body) = true.

(** When a statement before the [try] block raises, [run] ends with the
    exception and browser.close() is not called. *)
Lemma no_close_before_try E o :
  In o setup -> In (o, false) (log S E) ->
  result S E = false /\ forall b, ~ In (Close, b) (log S E).
Proof.
  intros Ho Hin.
  pose proof (every_run S setup body S_script
                (fun b t => implb (setup_raised setup t) (negb b && no_close t))
                checked E) as P.
  cbv beta in P.
  assert (R : setup_raised setup (log S E) = true).
  { apply existsb_exists. exists o. split; [exact Ho | apply mem_In, Hin]. }
  rewrite R in P. cbn [implb] in P. apply andb_true_iff in P. destruct P as [P1 P2].
  split; [destruct (result S E); [discriminate | reflexivity]|].
  intros b Hb. unfold no_close in P2. rewrite forallb_forall in P2.
  specialize (P2 _ Hb). discriminate P2.
Qed.

End NoCloseBeforeTry.

Lemma add_client_no_close_before_try E o :
  In o AddClientOps.setup -> In (o, false) (log AddClient.run E) ->
  result AddClient.run E = false
  /\ forall b, ~ In (Close, b) (log AddClient.run E).
Proof.
  apply (no_close_before_try _ _ _ add_client_script). vm_compute. reflexivity.
Qed.

Lemma verify_devolution_no_close_before_try E o :
  In o VerifyDevolutionOps.setup -> In (o, false) (log VerifyDevolution.run E) ->
  result VerifyDevolution.run E = false
  /\ forall b, ~ In (Close, b) (log VerifyDevolution.run E).
Proof.
  apply (no_close_before_try _ _ _ verify_devolution_script).
  vm_compute. reflexivity.
Qed.

(** C2 (as amended).  In every execution of either script in which the
    statements before the [try] block (launch, new_page and, in
    add_client.py, the two page.on registrations) return normally,
    browser.close() is executed exactly once, as the last call before [run]
    returns, whether the body of the [try] block completes or raises at any
    step.  An exception raised by a statement before the [try] block leaves
    [run] without calling browser.close(). *)
Theorem C2_close_runs_once_try_is_entered E :
  (setup_ok AddClientOps.setup (log AddClient.run E) ->
   exists t b, log AddClient.run E = t ++ [(Close, b)]
               /\ forall c, In c t -> fst c <> Close)
  /\ (setup_ok VerifyDevolutionOps.setup (log VerifyDevolution.run E) ->
   exists t b, log VerifyDevolution.run E = t ++ [(Close, b)]
               /\ forall c, In c t -> fst c <> Close)
  /\ (forall o,
      In o AddClientOps.setup -> In (o, false) (log AddClient.run E) ->
      result AddClient.run E = false
      /\ forall b, ~ In (Close, b) (log AddClient.run E))
  /\ (forall o,
      In o VerifyDevolutionOps.setup ->
      In (o, false) (log VerifyDevolution.run E) ->
      result VerifyDevolution.run E = false
      /\ forall b, ~ In (Close, b) (log VerifyDevolution.run E)).
Proof.
  split; [apply add_client_close_is_last|].
  split; [apply verify_devolution_close_is_last|].
  split; intros o.
  - apply add_client_no_close_before_try.
  - apply verify_devolution_no_close_before_try.
Qed.

Ltac in_list := simpl; repeat (first [left; reflexivity | right]).

Ltac setup_is_ok :=
  let o := fresh "o" in
  let H := fresh "H" in
  intros o H; simpl in H;
  repeat (destruct H as [H|H]; [subst o; vm_compute; tauto|]);
  contradiction.

(** The body raises at its fourth call (the click on "Salvar" of
    add_client.py, call number 8; the click on "Salvar" of
    verify_multi_part_devolution.py is call number 5); the registration of
    the dialog handler of add_client.py (call number 3) raises; new_page of
    verify_multi_part_devolution.py (call number 1) raises. *)
Lemma C2_close_runs_witness :
  (exists t b, log AddClient.run (fails_at 8) = t ++ [(Close, b)]
               /\ forall c, In c t -> fst c <> Close)
  /\ (exists t b, log VerifyDevolution.run (fails_at 5) = t ++ [(Close, b)]
               /\ forall c, In c t -> fst c <> Close)
  /\ (result AddClient.run (fails_at 3) = false
   /\ forall b, ~ In (Close, b) (log AddClient.run (fails_at 3)))
  /\ (result VerifyDevolution.run (fails_at 1) = false
   /\ forall b, ~ In (Close, b) (log VerifyDevolution.run (fails_at 1))).
Proof.
  split; [|split; [|split]].
  - apply (proj1 (C2_close_runs_once_try_is_entered (fails_at 8))). setup_is_ok.
  - apply (proj1 (proj2 (C2_close_runs_once_try_is_entered (fails_at 5)))).
    setup_is_ok.
  - apply (proj1 (proj2 (proj2 (C2_close_runs_once_try_is_entered (fails_at 3))))
             (On "dialog" AcceptDialog)).
    + simpl. tauto.
    + vm_compute. tauto.
  - apply (proj2 (proj2 (proj2 (C2_close_runs_once_try_is_entered (fails_at 1))))
             NewPage).
    + simpl. tauto.
    + vm_compute. tauto.
Defined.

(** C2 (as stated) fails: when new_page raises, the browser has been
    launched, [run] ends with the exception and browser.close() is never
    called. *)
Lemma C2_counterexample :
  log AddClient.run (fails_at 1) = [(Launch true, true); (NewPage, false)]
  /\ result AddClient.run (fails_at 1) = false
  /\ ~ (exists b, In (Close, b) (log AddClient.run (fails_at 1))).
Proof.
  assert (H : log AddClient.run (fails_at 1)
              = [(Launch true, true); (NewPage, false)])
    by (vm_compute; reflexivity).
  split; [exact H|]. split; [vm_compute; reflexivity|].
  rewrite H. intros [b [Hb|[Hb|[]]]]; discriminate Hb.
Qed.

(** ** Dialogs and listeners *)

Section Listeners.

Variable S : env -> M unit.
Variables setup body : list op.
Hypothesis S_script : forall E st, S E st = script E setup body st.

Lemma every_logged (p : op * bool -> bool) :
  forallb (fun r => forallb p (snd r)) (runs setup body) = true ->
  forall E c, In c (log S E) -> p c = true.
Proof.
  intros H E c Hc.
  pose proof (every_run S setup body S_script (fun _ t => forallb p t) H E) as P.
  simpl in P. rewrite forallb_forall in P. apply P, Hc.
Qed.

Lemma final_listeners E : listeners (final S E) = registered (log S E).
Proof. apply (final_faithful S setup body S_script E). Qed.


End Listeners.

Lemma same_callbacks_eq a b : same_callbacks a b = true -> a = b.
Proof.
  unfold same_callbacks. destruct (list_eq_dec callback_eq_dec a b); [auto|discriminate].
Qed.




(** C8.  verify_multi_part_devolution.py registers no page event handler:
    none of its calls is a page.on, its listener table stays empty, and no
    event of the page - so no dialog either, whenever it opens, including
    after that script's own click on "Salvar" - draws any reaction from
    the script.  add_client.py registers exactly a console listener and a
    dialog handler. *)
Theorem C8_only_add_client_registers_handlers E :
  (forall c, In c (log VerifyDevolution.run E) -> is_on (fst c) = false)
  /\ listeners (final VerifyDevolution.run E) = []
  /\ (forall t1 r t2 e rs,
        trace (final VerifyDevolution.run E) = t1 ++ r :: t2 ->
        In (e, rs) (emitted r) -> rs = [])
  /\ (result VerifyDevolution.run E = true ->
      In (salvar, true) (log VerifyDevolution.run E))
  /\ (forall c, In c (log AddClient.run E) -> is_on (fst c) = true ->
        fst c = On "console" PrintConsole \/ fst c = On "dialog" AcceptDialog)
  /\ (setup_ok AddClientOps.setup (log AddClient.run E) ->
      listeners (final AddClient.run E)
      = [("console", PrintConsole); ("dialog", AcceptDialog)]).
Proof.
  split; [|split; [|split; [|split; [|split]]]].
  - intros c Hc.
    apply (every_logged _ _ _ verify_devolution_script
             (fun c => negb (is_on (fst c))) ltac:(vm_compute; reflexivity) E) in Hc.
    destruct (is_on (fst c)); [discriminate | reflexivity].
  - rewrite (final_listeners _ _ _ verify_devolution_script).
    pose proof (every_run _ _ _ verify_devolution_script
                  (fun _ t => registers_nothing t)
                  ltac:(vm_compute; reflexivity) E) as P.
    simpl in P. unfold registers_nothing in P.
    destruct (registered (log VerifyDevolution.run E)); [reflexivity | discriminate].
  - intros t1 r t2 e rs Ht Hin.
    pose proof (reactions _ _ _ verify_devolution_script E t1 r t2 e rs Ht Hin) as Hrs.
    pose proof (every_call _ _ _ verify_devolution_script
                  (fun _ t1 _ _ => registers_nothing t1)
                  ltac:(vm_compute; reflexivity) E _ _ _
                  (log_split VerifyDevolution.run E t1 r t2 Ht)) as P.
    simpl in P. unfold registers_nothing in P.
    destruct (registered (map summary t1)); [exact Hrs | discriminate].
  - intros Hres.
    pose proof (every_run _ _ _ verify_devolution_script
                  (fun b t => implb b (mem (salvar, true) t))
                  ltac:(vm_compute; reflexivity) E) as P.
    simpl in P. rewrite Hres in P. apply mem_In. exact P.
  - intros c Hc Hon.
    apply (every_logged _ _ _ add_client_script
             (fun c => implb (is_on (fst c))
                         (if op_eq_dec (fst c) (On "console" PrintConsole) then true
                          else if op_eq_dec (fst c) (On "dialog" AcceptDialog) then true
                          else false))
             ltac:(vm_compute; reflexivity) E) in Hc.
    rewrite Hon in Hc. simpl in Hc.
    destruct (op_eq_dec (fst c) (On "console" PrintConsole)); [left; assumption|].
    destruct (op_eq_dec (fst c) (On "dialog" AcceptDialog)); [right; assumption|].
    discriminate.
  - intros Hs. rewrite (final_listeners _ _ _ add_client_script).
    pose proof (every_run _ _ _ add_client_script
                  (fun _ t =>
                     implb (setup_okb AddClientOps.setup t)
                           (same_listeners
                              (registered t)
                              [("console", PrintConsole); ("dialog", AcceptDialog)]))
                  ltac:(vm_compute; reflexivity) E) as P.
    cbv beta in P. rewrite (setup_okb_true _ _ Hs) in P.
    unfold implb, same_listeners in P.
    destruct (list_eq_dec listener_eq_dec (registered (log AddClient.run E)) _);
      [assumption | discriminate].
Qed.

(** A dialog opens during the click on "Salvar" of
    verify_multi_part_devolution.py (call number 5) and nothing answers. *)
Lemma C8_witness :
  let E := dialog_at 5 "Cadastro salvo" in
  let t := trace (final VerifyDevolution.run E) in
  let r := nth 5 t (mkRecord Close [] false) in
  is_on (what r) = false
  /\ snd (hd (Dialog "none", [Accepted]) (emitted r)) = []
  /\ In (salvar, true) (log VerifyDevolution.run E)
  /\ (On "dialog" AcceptDialog = On "console" PrintConsole
      \/ On "dialog" AcceptDialog = On "dialog" AcceptDialog)
  /\ listeners (final AddClient.run E)
     = [("console", PrintConsole); ("dialog", AcceptDialog)].
Proof.
  intros E t r.
  destruct (C8_only_add_client_registers_handlers E)
    as (H1 & _ & H3 & H4 & H5 & H6).
  split; [|split; [|split; [|split]]].
  - apply (H1 (summary r)). vm_compute. tauto.
  - apply (H3 (firstn 5 t) r (skipn 6 t) (Dialog "Cadastro salvo"));
      [vm_compute; reflexivity | vm_compute; left; reflexivity].
  - apply H4. vm_compute. reflexivity.
  - apply (H5 (On "dialog" AcceptDialog, true)); [vm_compute; tauto | reflexivity].
  - apply H6. setup_is_ok.
Defined.

(** ** Selectors *)

Lemma op_eqb_eq a b : op_eqb a b = true <-> a = b.
Proof. unfold op_eqb. destruct (op_eq_dec a b); split; intros; auto; discriminate. Qed.

Lemma call_eqb_eq a b : call_eqb a b = true <-> a = b.
Proof. unfold call_eqb. destruct (call_eq_dec a b); split; intros; auto; discriminate. Qed.

Lemma same_ops_eq a b : same_ops a b = true <-> a = b.
Proof. unfold same_ops. destruct (list_eq_dec op_eq_dec a b); split; intros; auto; discriminate. Qed.

Lemma no_repeat_NoDup l : no_repeat l = true -> NoDup l.
Proof.
  unfold no_repeat. intros H. apply same_ops_eq in H. rewrite <- H. apply NoDup_nodup.
Qed.

Lemma ends_with_spec a t : ends_with a t = true -> exists t0, t = t0 ++ [a].
Proof.
  unfold ends_with. destruct (rev t) as [|c r] eqn:Hr; [discriminate|].
  intros H. apply call_eqb_eq in H. subst c. exists (rev r).
  rewrite <- (rev_involutive t), Hr. reflexivity.
Qed.

Section Program.

Variable S : env -> M unit.
Variables setup body : list op.
Hypothesis S_script : forall E st, S E st = script E setup body st.

(** Every call of an execution is a call of the program text. *)
Lemma logged_in_program E o b :
  In (o, b) (log S E) -> In o (setup ++ body ++ [Close]).
Proof.
  intros H.
  assert (G : forall l t r, In (r, t) (outcomes l) -> forall c, In c t -> In (fst c) l).
  { induction l as [|a l IH]; simpl; intros t r Hin c Hc.
    - destruct Hin as [Hin|[]]. injection Hin as <- <-. destruct Hc.
    - destruct Hin as [Hin|Hin].
      + injection Hin as <- <-. destruct Hc as [<-|[]]. left. reflexivity.
      + apply in_map_iff in Hin. destruct Hin as ([r' t'] & Heq & Hin).
        simpl in Heq. injection Heq as <- <-.
        destruct Hc as [<-|Hc]; [left; reflexivity|]. right. eapply IH; eauto. }
  pose proof (in_runs S setup body S_script E) as Hr.
  unfold runs in Hr. apply in_flat_map in Hr. destruct Hr as ([b1 t1] & H1 & Hr).
  simpl in Hr. destruct b1.
  - apply in_flat_map in Hr. destruct Hr as ([b2 t2] & H2 & Hr). simpl in Hr.
    assert (Hlog : exists bc, log S E = t1 ++ t2 ++ [(Close, bc)]).
    { destruct Hr as [Hr|[Hr|[]]]; injection Hr as _ <-; eauto. }
    destruct Hlog as [bc Hlog]. rewrite Hlog in H.
    apply in_app_or in H. destruct H as [H|H].
    + apply in_or_app. left. apply (G _ _ _ H1 _ H).
    + apply in_app_or in H. apply in_or_app. right. apply in_or_app.
      destruct H as [H|H].
      * left. apply (G _ _ _ H2 _ H).
      * right. destruct H as [H|[]]. injection H as <- _. left. reflexivity.
  - destruct Hr as [Hr|[]]. injection Hr as _ Hl. rewrite <- Hl in H.
    apply in_or_app. left. apply (G _ _ _ H1 _ H).
Qed.

End Program.

Ltac plain_kind :=
  unfold plain_selector;
  first
    [ left; eexists; reflexivity
    | right; left; reflexivity
    | right; right; left; eexists; reflexivity
    | right; right; right; reflexivity ].

Ltac selector_kind :=
  first
    [ left; plain_kind
    | right; exists "0"; eexists; split; [left; reflexivity | reflexivity]
    | right; exists "1"; eexists; split; [right; reflexivity | reflexivity] ].

(** C4 (as amended).  Every DOM element the two scripts act on is located
    by a form-field label, by the id of the navigation element
    (#navbarNav), by a button's label text or by the CSS class of the
    success message (.alert-success), or - for the part fields of
    verify_multi_part_devolution.py - by a label inside a part row that is
    itself located by the CSS selector .part-row[data-part-index=N], N being
    0 or 1.  add_client.py uses the first four kinds only. *)
Theorem C4_selectors_used E o b l :
  target_of o = Some l ->
  (In (o, b) (log AddClient.run E) -> plain_selector l)
  /\ (In (o, b) (log VerifyDevolution.run E) ->
      plain_selector l \/ part_field_selector l).
Proof.
  intros Ht. split; intros H.
  - apply (logged_in_program _ _ _ add_client_script) in H. simpl in H.
    repeat (destruct H as [H|H];
            [subst o; simpl in Ht; try discriminate Ht; injection Ht as <-;
             plain_kind |]).
    contradiction.
  - apply (logged_in_program _ _ _ verify_devolution_script) in H. simpl in H.
    repeat (destruct H as [H|H];
            [subst o; simpl in Ht; try discriminate Ht; injection Ht as <-;
             selector_kind |]).
    contradiction.
Qed.

Lemma C4_selectors_witness :
  plain_selector (GetByRole Page "button" "Salvar")
  /\ (plain_selector (GetByLabel (VerifyDevolutionOps.part_row "1") "Quantidade")
      \/ part_field_selector
           (GetByLabel (VerifyDevolutionOps.part_row "1") "Quantidade")).
Proof.
  split.
  - apply (proj1 (C4_selectors_used all_ok salvar true _ eq_refl)).
    vm_compute. tauto.
  - apply (proj2 (C4_selectors_used all_ok
                    (Fill (GetByLabel (VerifyDevolutionOps.part_row "1") "Quantidade") "2")
                    true _ eq_refl)).
    vm_compute. tauto.
Defined.

(** C4 (as stated) fails: the part-code field of row 0 is reached through
    the CSS selector .part-row[data-part-index="0"], which is none of the
    four kinds. *)
Lemma C4_counterexample :
  exists o l,
    In (o, true) (log VerifyDevolution.run all_ok)
    /\ target_of o = Some l
    /\ l = GetByLabel (Locator Page (".part-row[data-part-index=" ++ dq ++ "0" ++ dq ++ "]")%string)
                      "Código da Peça"
    /\ ~ plain_selector l.
Proof.
  exists (Fill (GetByLabel (VerifyDevolutionOps.part_row "0") "Código da Peça") "PART-001").
  eexists. split; [vm_compute; tauto|]. split; [reflexivity|]. split; [reflexivity|].
  intros [[text H]|[H|[[name H]|H]]]; discriminate H.
Qed.

(** ** Straight-line behaviour *)

Section SameRaises.

Variables E1 E2 : env.
Hypothesis same_raises : forall k o, raises E1 k o = raises E2 k o.

Lemma calls_of_length st : List.length (calls_of st) = List.length (trace st).
Proof. unfold calls_of. apply length_map. Qed.

Lemma call_same_raises o st1 st2 :
  calls_of st1 = calls_of st2 ->
  returned (fst (call E1 o st1)) = returned (fst (call E2 o st2))
  /\ calls_of (snd (call E1 o st1)) = calls_of (snd (call E2 o st2)).
Proof.
  intros H. rewrite !call_calls, H.
  assert (R : returned (fst (call E1 o st1)) = returned (fst (call E2 o st2))).
  { unfold call. simpl. rewrite <- !calls_of_length, H, same_raises. reflexivity. }
  rewrite R. auto.
Qed.

Lemma play_same_raises l st1 st2 :
  calls_of st1 = calls_of st2 ->
  fst (play E1 l st1) = fst (play E2 l st2)
  /\ calls_of (snd (play E1 l st1)) = calls_of (snd (play E2 l st2)).
Proof.
  revert st1 st2. induction l as [|o l IH]; intros st1 st2 H; [auto|].
  rewrite !play_cons. destruct (call_same_raises o st1 st2 H) as [R C].
  destruct (call E1 o st1) as [[[]|] s1], (call E2 o st2) as [[[]|] s2];
    simpl in R, C; try discriminate R; auto.
Qed.

Lemma script_same_raises setup body st1 st2 :
  calls_of st1 = calls_of st2 ->
  calls_of (snd (script E1 setup body st1))
  = calls_of (snd (script E2 setup body st2)).
Proof.
  intros H. unfold script.
  destruct (play_same_raises setup st1 st2 H) as [R1 C1].
  destruct (play E1 setup st1) as [b1 s1], (play E2 setup st2) as [b1' s1'].
  simpl in R1, C1. subst b1'. destruct b1; [|exact C1].
  destruct (play_same_raises body s1 s1' C1) as [R2 C2].
  destruct (play E1 body s1) as [b2 s2], (play E2 body s1') as [b2' s2'].
  simpl in R2, C2. subst b2'.
  destruct (call_same_raises Close s2 s2' C2) as [R3 C3].
  destruct (call E1 Close s2) as [[[]|] s3], (call E2 Close s2') as [[[]|] s3'];
    simpl in R3, C3; try discriminate R3; exact C3.
Qed.

End SameRaises.

Lemma all_succeed_forallb t : all_succeed t -> forallb snd t = true.
Proof. intros H. apply forallb_forall. exact H. Qed.

Lemma forallb_all_succeed t : forallb snd t = true -> all_succeed t.
Proof. intros H. unfold all_succeed. apply forallb_forall. exact H. Qed.

Section ProgramOrder.

Variable S : env -> M unit.
Variables setup body : list op.
Hypothesis S_script : forall E st, S E st = script E setup body st.
Hypothesis checked :
  forallb (fun r => implb (forallb snd (snd r))
                          (same_ops (map fst (snd r)) (setup ++ body ++ [Close]))
                    && no_repeat (map fst (snd r)))
          (runs setup body) = true.

(** When nothing raises, the calls are those of the program text, in
    program order. *)
Lemma program_order E :
  all_succeed (log S E) -> map fst (log S E) = setup ++ body ++ [Close].
Proof.
  intros H.
  pose proof (every_run S setup body S_script
                  (fun _ t => implb (forallb snd t)
                                    (same_ops (map fst t) (setup ++ body ++ [Close]))
                              && no_repeat (map fst t))
                  checked E) as P.
  cbv beta in P. apply andb_true_iff in P. destruct P as [P _].
  rewrite (all_succeed_forallb _ H) in P. apply same_ops_eq. exact P.
Qed.

Lemma never_twice E : NoDup (map fst (log S E)).
Proof.
  pose proof (every_run S setup body S_script
                  (fun _ t => implb (forallb snd t)
                                    (same_ops (map fst t) (setup ++ body ++ [Close]))
                              && no_repeat (map fst t))
                  checked E) as P.
  cbv beta in P. apply andb_true_iff in P. destruct P as [_ P].
  apply no_repeat_NoDup. exact P.
Qed.

Lemma content_independent E1 E2 :
  (forall k o, raises E1 k o = raises E2 k o) -> log S E1 = log S E2.
Proof.
  intros H. unfold log, final. rewrite !S_script.
  apply script_same_raises; [exact H | reflexivity].
Qed.

End ProgramOrder.

Lemma add_client_checked :
  forallb (fun r => implb (forallb snd (snd r))
                          (same_ops (map fst (snd r))
                             (AddClientOps.setup ++ AddClientOps.body ++ [Close]))
                    && no_repeat (map fst (snd r)))
          (runs AddClientOps.setup AddClientOps.body) = true.
Proof. vm_compute. reflexivity. Qed.

Lemma verify_devolution_checked :
  forallb (fun r => implb (forallb snd (snd r))
                          (same_ops (map fst (snd r))
                             (VerifyDevolutionOps.setup ++ VerifyDevolutionOps.body
                              ++ [Close]))
                    && no_repeat (map fst (snd r)))
          (runs VerifyDevolutionOps.setup VerifyDevolutionOps.body) = true.
Proof. vm_compute. reflexivity. Qed.

(** C5.  Each script is one straight line of calls: any two executions in
    which every call succeeds issue the same calls with the same arguments
    in the same order; no execution issues a call twice (nothing is
    retried); and which calls are made depends only on which calls raise,
    not on what the page emits. *)
Theorem C5_straight_line E1 E2 :
  (all_succeed (log AddClient.run E1) -> all_succeed (log AddClient.run E2) ->
   map fst (log AddClient.run E1) = map fst (log AddClient.run E2))
  /\ (all_succeed (log VerifyDevolution.run E1) ->
      all_succeed (log VerifyDevolution.run E2) ->
      map fst (log VerifyDevolution.run E1) = map fst (log VerifyDevolution.run E2))
  /\ NoDup (map fst (log AddClient.run E1))
  /\ NoDup (map fst (log VerifyDevolution.run E1))
  /\ ((forall k o, raises E1 k o = raises E2 k o) ->
      log AddClient.run E1 = log AddClient.run E2
      /\ log VerifyDevolution.run E1 = log VerifyDevolution.run E2).
Proof.
  split; [|split; [|split; [|split]]].
  - intros H1 H2.
    rewrite (program_order _ _ _ add_client_script add_client_checked E1 H1).
    rewrite (program_order _ _ _ add_client_script add_client_checked E2 H2).
    reflexivity.
  - intros H1 H2.
    rewrite (program_order _ _ _ verify_devolution_script verify_devolution_checked E1 H1).
    rewrite (program_order _ _ _ verify_devolution_script verify_devolution_checked E2 H2).
    reflexivity.
  - apply (never_twice _ _ _ add_client_script add_client_checked).
  - apply (never_twice _ _ _ verify_devolution_script verify_devolution_checked).
  - intros H. split.
    + apply (content_independent _ _ _ add_client_script _ _ H).
    + apply (content_independent _ _ _ verify_devolution_script _ _ H).
Qed.

Ltac all_succeeded := apply forallb_all_succeed; vm_compute; reflexivity.

(** Two executions with different page content: silent pages, and a page
    that opens a dialog during call number 5. *)
Lemma C5_straight_line_witness :
  map fst (log AddClient.run all_ok)
  = map fst (log AddClient.run (dialog_at 5 "Cadastro salvo"))
  /\ map fst (log VerifyDevolution.run all_ok)
     = map fst (log VerifyDevolution.run (dialog_at 5 "Cadastro salvo"))
  /\ log AddClient.run all_ok = log AddClient.run (dialog_at 5 "Cadastro salvo")
  /\ log VerifyDevolution.run all_ok
     = log VerifyDevolution.run (dialog_at 5 "Cadastro salvo").
Proof.
  destruct (C5_straight_line all_ok (dialog_at 5 "Cadastro salvo"))
    as (H1 & H2 & _ & _ & H5).
  split; [apply H1; all_succeeded|].
  split; [apply H2; all_succeeded|].
  apply H5. intros k o. reflexivity.
Defined.

(** ** The fixed-duration wait *)

Section FixedWait.

Variable S : env -> M unit.
Variables setup body : list op.
Hypothesis S_script : forall E st, S E st = script E setup body st.
Hypothesis checked :
  forallb (fun r => forallb (fun s => fixed_wait_check (fst (fst s)) (snd (fst s)) (snd s))
                            (splits (snd r))
                    && implb (fst r) (mem (WaitForTimeout 2000, true) (snd r)))
          (runs setup body) = true.

Lemma checked_calls :
  forallb (fun r => forallb (fun s => fixed_wait_check (fst (fst s)) (snd (fst s)) (snd s))
                            (splits (snd r)))
          (runs setup body) = true.
Proof.
  apply forallb_forall. intros r Hr. rewrite forallb_forall in checked.
  specialize (checked r Hr). apply andb_true_iff in checked. tauto.
Qed.

Lemma fixed_wait E t1 x t2 :
  log S E = t1 ++ x :: t2 ->
  untied_wait (fst x) = true ->
  fst x = WaitForTimeout 2000
  /\ (exists t0, t1 = t0 ++ [(salvar, true)])
  /\ forall c, In c (t1 ++ t2) -> untied_wait (fst c) = false.
Proof.
  intros Hlog Hx.
  pose proof (every_call S setup body S_script (fun _ => fixed_wait_check)
                checked_calls E t1 x t2 Hlog) as P.
  unfold fixed_wait_check in P. rewrite Hx in P. cbn [implb] in P.
  apply andb_true_iff in P. destruct P as [P P3].
  apply andb_true_iff in P. destruct P as [P1 P2].
  split; [apply op_eqb_eq, P1|]. split; [apply ends_with_spec, P2|].
  intros c Hc. rewrite forallb_forall in P3. specialize (P3 c Hc).
  destruct (untied_wait (fst c)); [discriminate | reflexivity].
Qed.

Lemma fixed_wait_happens E :
  result S E = true -> In (WaitForTimeout 2000, true) (log S E).
Proof.
  intros Hres.
  pose proof (every_run S setup body S_script
                (fun b t => implb b (mem (WaitForTimeout 2000, true) t))) as P.
  cbv beta in P. rewrite <- mem_In. specialize (P ltac:(
    apply forallb_forall; intros r Hr; rewrite forallb_forall in checked;
    specialize (checked r Hr); apply andb_true_iff in checked; tauto) E).
  rewrite Hres in P. exact P.
Qed.

End FixedWait.

(** C6.  In both scripts the only wait that is tied to no element is one
    pause of exactly 2000 ms, made directly after the successful click on
    "Salvar" of the client form: every untied wait of an execution is that
    pause, no execution makes two, and an execution that completes makes
    it. *)
Theorem C6_single_fixed_wait E :
  (forall t1 x t2,
      log AddClient.run E = t1 ++ x :: t2
      \/ log VerifyDevolution.run E = t1 ++ x :: t2 ->
      untied_wait (fst x) = true ->
      fst x = WaitForTimeout 2000
      /\ (exists t0, t1 = t0 ++ [(salvar, true)])
      /\ forall c, In c (t1 ++ t2) -> untied_wait (fst c) = false)
  /\ (result AddClient.run E = true ->
      In (WaitForTimeout 2000, true) (log AddClient.run E))
  /\ (result VerifyDevolution.run E = true ->
      In (WaitForTimeout 2000, true) (log VerifyDevolution.run E)).
Proof.
  split; [|split].
  - intros t1 x t2 [H|H].
    + apply (fixed_wait _ _ _ add_client_script ltac:(vm_compute; reflexivity) E _ _ _ H).
    + apply (fixed_wait _ _ _ verify_devolution_script
               ltac:(vm_compute; reflexivity) E _ _ _ H).
  - apply (fixed_wait_happens _ _ _ add_client_script ltac:(vm_compute; reflexivity)).
  - apply (fixed_wait_happens _ _ _ verify_devolution_script
             ltac:(vm_compute; reflexivity)).
Qed.

(** The execution in which nothing raises: the pause is call number 6 of
    verify_multi_part_devolution.py, right after the click on "Salvar". *)
Lemma C6_single_fixed_wait_witness :
  let t := log VerifyDevolution.run all_ok in
  (fst (nth 6 t (Close, false)) = WaitForTimeout 2000
   /\ (exists t0, firstn 6 t = t0 ++ [(salvar, true)])
   /\ forall c, In c (firstn 6 t ++ skipn 7 t) -> untied_wait (fst c) = false)
  /\ In (WaitForTimeout 2000, true) (log AddClient.run all_ok)
  /\ In (WaitForTimeout 2000, true) t.
Proof.
  intros t. destruct (C6_single_fixed_wait all_ok) as (H1 & H2 & H3).
  split; [|split].
  - apply H1; [right; vm_compute; reflexivity | vm_compute; reflexivity].
  - apply H2. vm_compute. reflexivity.
  - apply H3. vm_compute. reflexivity.
Defined.

(** ** Order of the calls *)

Lemma ok_goto_before t :
  existsb ok_goto t = true -> exists g, In (g, true) t /\ is_goto g = true.
Proof.
  intros H. apply existsb_exists in H. destruct H as ([g b] & Hin & Hg).
  unfold ok_goto in Hg. simpl in Hg. apply andb_true_iff in Hg.
  destruct Hg as [Hg ->]. exists g. auto.
Qed.

Lemma ok_goto_last t :
  match rev t with c :: _ => ok_goto c | [] => false end = true ->
  exists t0 g, t = t0 ++ [(g, true)] /\ is_goto g = true.
Proof.
  destruct (rev t) as [|[g b] r] eqn:Hr; [discriminate|].
  unfold ok_goto. simpl. intros H. apply andb_true_iff in H. destruct H as [Hg ->].
  exists (rev r), g. split; [|exact Hg].
  rewrite <- (rev_involutive t), Hr. reflexivity.
Qed.

Lemma no_input_until_goto_spec t :
  no_input_until_goto t = true ->
  forall u y v, t = u ++ y :: v -> is_input (fst y) = true ->
                exists g, In (g, true) u /\ is_goto g = true.
Proof.
  unfold no_input_until_goto. intros H u y v -> Hy.
  rewrite forallb_forall in H. specialize (H _ (splits_complete u y v)).
  simpl in H. rewrite Hy in H. apply ok_goto_before. exact H.
Qed.

Lemma banner_check_target o :
  is_banner_check o = true -> target_of o = Some VerifyDevolutionOps.success_alert.
Proof.
  destruct o; simpl; try discriminate;
    destruct (locator_eq_dec target VerifyDevolutionOps.success_alert);
    try discriminate; intros _; subst; reflexivity.
Qed.

Section Order.

Variable S : env -> M unit.
Variables setup body : list op.
Hypothesis S_script : forall E st, S E st = script E setup body st.
Hypothesis checked :
  forallb (fun r => forallb (fun s => order_check (fst (fst s)) (snd (fst s)) (snd s))
                            (splits (snd r)))
          (runs setup body) = true.

Lemma order E t1 x t2 :
  log S E = t1 ++ x :: t2 ->
  (is_goto (fst x) = true -> In (Launch true, true) t1 /\ In (NewPage, true) t1)
  /\ (is_input (fst x) = true -> exists g, In (g, true) t1 /\ is_goto g = true)
  /\ (is_submit (fst x) = true ->
      forall u y v, t2 = u ++ y :: v -> is_input (fst y) = true ->
                    exists g, In (g, true) u /\ is_goto g = true)
  /\ (is_assertion (fst x) = true ->
      (target_of (fst x) = Some VerifyDevolutionOps.success_alert
       /\ In (salvar_devolucao, true) t1)
      \/ (fst x = ToBeVisible navbar
          /\ exists t0 g, t1 = t0 ++ [(g, true)] /\ is_goto g = true))
  /\ (is_screenshot (fst x) = true -> In (salvar_devolucao, true) t1)
  /\ (fst x = Close -> t2 = []).
Proof.
  intros Hlog.
  pose proof (every_call S setup body S_script (fun _ => order_check)
                checked E t1 x t2 Hlog) as P.
  unfold order_check in P.
  apply andb_true_iff in P. destruct P as [P P6].
  apply andb_true_iff in P. destruct P as [P P5].
  apply andb_true_iff in P. destruct P as [P P4].
  apply andb_true_iff in P. destruct P as [P P3].
  apply andb_true_iff in P. destruct P as [P1 P2].
  split; [|split; [|split; [|split; [|split]]]].
  - intros H. rewrite H in P1. cbn [implb] in P1.
    apply andb_true_iff in P1. destruct P1 as [A B].
    split; apply mem_In; assumption.
  - intros H. rewrite H in P2. apply ok_goto_before. exact P2.
  - intros H. rewrite H in P3. apply no_input_until_goto_spec. exact P3.
  - intros H. rewrite H in P4. cbn [implb] in P4.
    destruct (is_banner_check (fst x)) eqn:Hb.
    + left. split; [apply banner_check_target, Hb | apply mem_In, P4].
    + right. apply andb_true_iff in P4. destruct P4 as [A B].
      split; [apply op_eqb_eq, A | apply ok_goto_last, B].
  - intros H. rewrite H in P5. apply mem_In. exact P5.
  - intros H. rewrite H in P6. simpl in P6. destruct t2; [reflexivity | discriminate].
Qed.

End Order.

(** C7 (as amended).  In every execution of either script: the browser is
    launched and the page created before any navigation; a navigation
    precedes every form input; after the click that submits a form there is
    no input until the next navigation; the click on "Salvar Devolução"
    precedes the assertions on the success message and the screenshot,
    whereas the only other assertion, that the navigation bar is visible,
    comes directly after a navigation (so before the inputs and the submit
    click of that page); browser.close(), whenever it is called, is the last
    call, and it is called whenever the statements before the [try] block
    returned normally. *)
Theorem C7_order_of_calls E :
  (forall t1 x t2,
      log AddClient.run E = t1 ++ x :: t2
      \/ log VerifyDevolution.run E = t1 ++ x :: t2 ->
      (is_goto (fst x) = true -> In (Launch true, true) t1 /\ In (NewPage, true) t1)
      /\ (is_input (fst x) = true -> exists g, In (g, true) t1 /\ is_goto g = true)
      /\ (is_submit (fst x) = true ->
          forall u y v, t2 = u ++ y :: v -> is_input (fst y) = true ->
                        exists g, In (g, true) u /\ is_goto g = true)
      /\ (is_assertion (fst x) = true ->
          (target_of (fst x) = Some VerifyDevolutionOps.success_alert
           /\ In (salvar_devolucao, true) t1)
          \/ (fst x = ToBeVisible navbar
              /\ exists t0 g, t1 = t0 ++ [(g, true)] /\ is_goto g = true))
      /\ (is_screenshot (fst x) = true -> In (salvar_devolucao, true) t1)
      /\ (fst x = Close -> t2 = []))
  /\ (setup_ok AddClientOps.setup (log AddClient.run E) ->
      exists t b, log AddClient.run E = t ++ [(Close, b)])
  /\ (setup_ok VerifyDevolutionOps.setup (log VerifyDevolution.run E) ->
      exists t b, log VerifyDevolution.run E = t ++ [(Close, b)]).
Proof.
  split; [|split].
  - intros t1 x t2 [H|H].
    + apply (order _ _ _ add_client_script ltac:(vm_compute; reflexivity) E _ _ _ H).
    + apply (order _ _ _ verify_devolution_script ltac:(vm_compute; reflexivity)
               E _ _ _ H).
  - intros H. destruct (add_client_close_is_last E H) as (t & b & Ht & _). eauto.
  - intros H. destruct (verify_devolution_close_is_last E H) as (t & b & Ht & _). eauto.
Qed.

(** The execution of verify_multi_part_devolution.py in which nothing
    raises, at its assertion that the success message is visible (call
    number 22). *)
Lemma C7_order_of_calls_witness :
  let t := log VerifyDevolution.run all_ok in
  ((target_of (fst (nth 22 t (Close, false))) = Some VerifyDevolutionOps.success_alert
    /\ In (salvar_devolucao, true) (firstn 22 t))
   \/ (fst (nth 22 t (Close, false)) = ToBeVisible navbar
       /\ exists t0 g, firstn 22 t = t0 ++ [(g, true)] /\ is_goto g = true))
  /\ (exists t' b, log AddClient.run all_ok = t' ++ [(Close, b)])
  /\ (exists t' b, t = t' ++ [(Close, b)]).
Proof.
  intros t. destruct (C7_order_of_calls all_ok) as (H1 & H2 & H3).
  split; [|split].
  - destruct (H1 (firstn 22 t) (nth 22 t (Close, false)) (skipn 23 t))
      as (_ & _ & _ & H & _); [right; vm_compute; reflexivity|].
    apply H. vm_compute. reflexivity.
  - apply H2. setup_is_ok.
  - apply H3. setup_is_ok.
Defined.

(** C7 (as stated) fails: in add_client.py the assertion that the
    navigation bar is visible (call number 5) comes before the click on
    "Salvar" (call number 8), not after it. *)
Lemma C7_counterexample :
  exists t1 t2,
    log AddClient.run all_ok = t1 ++ (ToBeVisible navbar, true) :: t2
    /\ is_assertion (ToBeVisible navbar) = true
    /\ forallb (fun c => negb (is_submit (fst c))) t1 = true
    /\ In (salvar, true) t2
    /\ is_submit salvar = true.
Proof.
  exists (firstn 5 (log AddClient.run all_ok)), (skipn 6 (log AddClient.run all_ok)).
  split; [vm_compute; reflexivity|]. split; [reflexivity|].
  split; [vm_compute; reflexivity|]. split; [vm_compute; tauto|].
  vm_compute. reflexivity.
Qed.

(** ** The part rows of the devolution form *)

Lemma op_eqb_refl o : op_eqb o o = true.
Proof. apply op_eqb_eq. reflexivity. Qed.

Lemma call_eqb_refl c : call_eqb c c = true.
Proof. apply call_eqb_eq. reflexivity. Qed.

(** C9.  In verify_multi_part_devolution.py the button "Adicionar Peça" is
    clicked at most once in any execution and before any part field is
    filled; when the click on "Salvar Devolução" is reached, it has been
    clicked exactly once and exactly the part rows of index 0 and 1 have
    been filled, each with code, quantity and description in that order,
    and no part field is touched afterwards. *)
Theorem C9_two_part_rows E :
  List.length (filter is_add_part (log VerifyDevolution.run E)) <= 1
  /\ (forall t1 x t2,
        log VerifyDevolution.run E = t1 ++ x :: t2 ->
        is_part_fill (fst x) = true -> In (adicionar_peca, true) t1)
  /\ (forall t1 b t2,
        log VerifyDevolution.run E = t1 ++ (salvar_devolucao, b) :: t2 ->
        filter is_add_part t1 = [(adicionar_peca, true)]
        /\ filter (fun c => is_part_fill (fst c)) t1 = part_fills
        /\ forall c, In c t2 ->
                     is_add_part c = false /\ is_part_fill (fst c) = false).
Proof.
  assert (K : forall t1 x t2,
             log VerifyDevolution.run E = t1 ++ x :: t2 ->
             part_rows_check t1 x t2 = true).
  { apply (every_call _ _ _ verify_devolution_script (fun _ => part_rows_check)).
    vm_compute. reflexivity. }
  split; [|split].
  - apply Nat.leb_le.
    apply (every_run _ _ _ verify_devolution_script
             (fun _ t => Nat.leb (List.length (filter is_add_part t)) 1)).
    vm_compute. reflexivity.
  - intros t1 x t2 Hlog Hx. specialize (K _ _ _ Hlog).
    unfold part_rows_check in K. apply andb_true_iff in K. destruct K as [K _].
    rewrite Hx in K. apply mem_In. exact K.
  - intros t1 b t2 Hlog. specialize (K _ _ _ Hlog).
    unfold part_rows_check in K. apply andb_true_iff in K. destruct K as [_ K].
    cbn [fst] in K. rewrite op_eqb_refl in K. cbn [implb] in K.
    apply andb_true_iff in K. destruct K as [K K3].
    apply andb_true_iff in K. destruct K as [K1 K2].
    split; [apply same_eq, K1|]. split; [apply same_eq, K2|].
    intros c Hc. rewrite forallb_forall in K3. specialize (K3 c Hc).
    apply andb_true_iff in K3. destruct K3 as [A B].
    split; [destruct (is_add_part c) | destruct (is_part_fill (fst c))];
      first [reflexivity | discriminate].
Qed.

(** The execution in which nothing raises: the click on "Salvar Devolução"
    is call number 21. *)
Lemma C9_two_part_rows_witness :
  let t := log VerifyDevolution.run all_ok in
  In (adicionar_peca, true) (firstn 13 t)
  /\ filter is_add_part (firstn 21 t) = [(adicionar_peca, true)]
  /\ filter (fun c => is_part_fill (fst c)) (firstn 21 t) = part_fills.
Proof.
  intros t. destruct (C9_two_part_rows all_ok) as (_ & H2 & H3).
  split.
  - apply (H2 (firstn 13 t) (nth 13 t (Close, false)) (skipn 14 t));
      vm_compute; reflexivity.
  - destruct (H3 (firstn 21 t) true (skipn 22 t)) as (A & B & _);
      [vm_compute; reflexivity | split; assumption].
Defined.

(** ** The screenshot *)

(** C10 (as amended).  In verify_multi_part_devolution.py the screenshot at
    jules-scratch/verification/multi_part_verification.png is taken only
    after every earlier call returned, both success-message assertions
    among them; if any earlier call raises, no screenshot is taken; when
    the [try] block has been entered, browser.close() still runs, last.
    The screenshot is the only file either script writes. *)
Theorem C10_screenshot_after_assertions E :
  (forall t1 x t2,
      log VerifyDevolution.run E = t1 ++ x :: t2 ->
      is_screenshot (fst x) = true ->
      fst x = Screenshot screenshot_path
      /\ all_succeed t1
      /\ In (banner_visible, true) t1
      /\ In (banner_has_text, true) t1
      /\ forall c, In c (t1 ++ t2) -> is_screenshot (fst c) = false)
  /\ (forall o,
        In (o, false) (log VerifyDevolution.run E) ->
        is_screenshot o = false -> is_close o = false ->
        forall c, In c (log VerifyDevolution.run E) -> is_screenshot (fst c) = false)
  /\ (setup_ok VerifyDevolutionOps.setup (log VerifyDevolution.run E) ->
      exists t b, log VerifyDevolution.run E = t ++ [(Close, b)])
  /\ (forall c p,
        In c (log VerifyDevolution.run E) ->
        writes_file (fst c) = Some p -> p = screenshot_path)
  /\ (forall c, In c (log AddClient.run E) -> writes_file (fst c) = None).
Proof.
  split; [|split; [|split; [|split]]].
  - intros t1 x t2 Hlog Hx.
    pose proof (every_call _ _ _ verify_devolution_script (fun _ => screenshot_check)
                  ltac:(vm_compute; reflexivity) E t1 x t2 Hlog) as K.
    unfold screenshot_check in K. rewrite Hx in K. cbn [implb] in K.
    apply andb_true_iff in K. destruct K as [K K5].
    apply andb_true_iff in K. destruct K as [K K4].
    apply andb_true_iff in K. destruct K as [K K3].
    apply andb_true_iff in K. destruct K as [K1 K2].
    split; [apply op_eqb_eq, K1|]. split; [apply forallb_all_succeed, K2|].
    split; [apply mem_In, K3|]. split; [apply mem_In, K4|].
    intros c Hc. rewrite forallb_forall in K5. specialize (K5 c Hc).
    destruct (is_screenshot (fst c)); [discriminate | reflexivity].
  - intros o Hin Hs Hc c Hcin.
    pose proof (every_run _ _ _ verify_devolution_script
                  (fun _ t => implb (earlier_step_raised t) (no_screenshot t))
                  ltac:(vm_compute; reflexivity) E) as K.
    cbv beta in K.
    assert (R : earlier_step_raised (log VerifyDevolution.run E) = true).
    { apply existsb_exists. exists (o, false). split; [exact Hin|].
      simpl. rewrite Hs, Hc. reflexivity. }
    rewrite R in K. cbn [implb] in K. unfold no_screenshot in K.
    rewrite forallb_forall in K. specialize (K c Hcin).
    destruct (is_screenshot (fst c)); [discriminate | reflexivity].
  - intros H. destruct (verify_devolution_close_is_last E H) as (t & b & Ht & _). eauto.
  - intros c p Hin Hw.
    apply (every_logged _ _ _ verify_devolution_script (writes_only screenshot_path)
             ltac:(vm_compute; reflexivity) E) in Hin.
    unfold writes_only in Hin. rewrite Hw in Hin. apply String.eqb_eq. exact Hin.
  - intros c Hin.
    apply (every_logged _ _ _ add_client_script writes_nothing
             ltac:(vm_compute; reflexivity) E) in Hin.
    unfold writes_nothing in Hin.
    destruct (writes_file (fst c)); [discriminate | reflexivity].
Qed.

(** The execution in which nothing raises (the screenshot is call number
    24), and the one in which the visibility assertion, call number 22,
    raises. *)
Lemma C10_screenshot_witness :
  let t := log VerifyDevolution.run all_ok in
  let u := log VerifyDevolution.run (fails_at 22) in
  (fst (nth 24 t (Close, false)) = Screenshot screenshot_path
   /\ all_succeed (firstn 24 t)
   /\ In (banner_visible, true) (firstn 24 t)
   /\ In (banner_has_text, true) (firstn 24 t)
   /\ forall c, In c (firstn 24 t ++ skipn 25 t) -> is_screenshot (fst c) = false)
  /\ (forall c, In c u -> is_screenshot (fst c) = false)
  /\ (exists t' b, u = t' ++ [(Close, b)])
  /\ screenshot_path = screenshot_path
  /\ writes_file (fst (nth 8 (log AddClient.run all_ok) (Close, false))) = None.
Proof.
  intros t u.
  destruct (C10_screenshot_after_assertions all_ok) as (H1 & _ & _ & H4 & H5).
  destruct (C10_screenshot_after_assertions (fails_at 22)) as (_ & G2 & G3 & _).
  split; [|split; [|split; [|split]]].
  - apply H1; vm_compute; reflexivity.
  - apply (G2 banner_visible); [vm_compute; tauto | reflexivity | reflexivity].
  - apply G3. setup_is_ok.
  - apply (H4 (nth 24 t (Close, false))); [vm_compute; tauto | reflexivity].
  - apply H5. vm_compute. tauto.
Defined.

(** C10 (as stated) fails: when new_page, an earlier step, raises, no
    screenshot is taken but browser.close() does not run either. *)
Lemma C10_counterexample :
  In (NewPage, false) (log VerifyDevolution.run (fails_at 1))
  /\ no_screenshot (log VerifyDevolution.run (fails_at 1)) = true
  /\ ~ (exists b, In (Close, b) (log VerifyDevolution.run (fails_at 1))).
Proof.
  assert (H : log VerifyDevolution.run (fails_at 1)
              = [(Launch true, true); (NewPage, false)])
    by (vm_compute; reflexivity).
  rewrite H. split; [simpl; tauto|]. split; [reflexivity|].
  intros [b [Hb|[Hb|[]]]]; discriminate Hb.
Qed.

(** ** The success message *)

Lemma asserted_next_spec t2 :
  asserted_next t2 = true ->
  exists b t3,
    t2 = (banner_visible, b) :: t3
    /\ (b = true -> exists b' t4, t3 = (banner_has_text, b') :: t4).
Proof.
  destruct t2 as [|[o b1] t3]; simpl; [discriminate|].
  intros H. apply andb_true_iff in H. destruct H as [Ho Hn].
  apply op_eqb_eq in Ho. subst o. exists b1, t3. split; [reflexivity|].
  intros ->. simpl in Hn. destruct t3 as [|[o' b'] t4]; [discriminate|].
  apply op_eqb_eq in Hn. subst o'. eauto.
Qed.

(** C1.  In verify_multi_part_devolution.py, whenever the click on "Salvar
    Devolução" is made and returns, the form has been filled with PART-001
    and quantity 1 in part row 0, PART-002 and quantity 2 in part row 1,
    client "Test Client", request "REQ-123", sale date 2023-01-01 and
    devolution date 2023-01-02; the next call asserts that the element of
    class alert-success is visible and, if that passes, the one after it
    asserts that it contains "Devolução registrada com sucesso!"; and the
    script completes only if both assertions passed. *)
Theorem C1_success_banner_asserted E t1 t2 :
  log VerifyDevolution.run E = t1 ++ (salvar_devolucao, true) :: t2 ->
  (forall a, In a devolution_inputs -> In a t1)
  /\ (exists b t3,
        t2 = (ToBeVisible (Locator Page ".alert-success"), b) :: t3
        /\ (b = true ->
            exists b' t4,
              t3 = (ToContainText (Locator Page ".alert-success")
                                  "Devolução registrada com sucesso!", b') :: t4))
  /\ (result VerifyDevolution.run E = true ->
      In (ToBeVisible (Locator Page ".alert-success"), true) t2
      /\ In (ToContainText (Locator Page ".alert-success")
                           "Devolução registrada com sucesso!", true) t2).
Proof.
  intros Hlog.
  pose proof (every_call _ _ _ verify_devolution_script banner_check
                ltac:(vm_compute; reflexivity) E _ _ _ Hlog) as K.
  unfold banner_check in K. rewrite call_eqb_refl in K. cbn [implb] in K.
  apply andb_true_iff in K. destruct K as [K K3].
  apply andb_true_iff in K. destruct K as [K1 K2].
  split; [|split].
  - intros a Ha. rewrite forallb_forall in K1. apply mem_In, K1, Ha.
  - apply asserted_next_spec. exact K2.
  - intros Hres. rewrite Hres in K3. cbn [implb] in K3.
    apply andb_true_iff in K3. destruct K3 as [A B].
    split; apply mem_In; assumption.
Qed.

(** The execution in which nothing raises: the click on "Salvar Devolução"
    is call number 21. *)
Lemma C1_success_banner_witness :
  let t := log VerifyDevolution.run all_ok in
  In (Fill (GetByLabel Page "Requisição de Venda") "REQ-123", true) (firstn 21 t)
  /\ (exists b t3,
        skipn 22 t = (ToBeVisible (Locator Page ".alert-success"), b) :: t3)
  /\ In (ToContainText (Locator Page ".alert-success")
                       "Devolução registrada com sucesso!", true) (skipn 22 t).
Proof.
  intros t.
  destruct (C1_success_banner_asserted all_ok (firstn 21 t) (skipn 22 t))
    as (H1 & (b & t3 & H2 & _) & H3); [vm_compute; reflexivity|].
  split; [apply H1; vm_compute; tauto|].
  split; [exists b, t3; exact H2|].
  apply H3. vm_compute. reflexivity.
Defined.

(** * Further properties

    ** The console listener of add_client.py *)

Lemma same_callbacks_either ls a :
  same_callbacks ls [] || same_callbacks ls [a] = true -> ls = [] \/ ls = [a].
Proof.
  intros H. apply orb_true_iff in H.
  destruct H as [H|H]; apply same_callbacks_eq in H; auto.
Qed.

(** X1.  In add_client.py a console message of the page is printed by the
    script at most once, as the line "CONSOLE: " followed by its text, and
    draws no other reaction; it is printed exactly once as soon as
    page.on("console", ...) has returned, which is the case for every
    message emitted from the first navigation on.  A dialog never makes the
    script print: it is accepted or left alone. *)
Theorem X1_console_messages_printed E t1 r t2 :
  trace (final AddClient.run E) = t1 ++ r :: t2 ->
  (forall text rs,
      In (ConsoleMessage text, rs) (emitted r) ->
      (rs = [] \/ rs = [Printed ("CONSOLE: " ++ text)%string])
      /\ (In (On "console" PrintConsole, true) (map summary t1) ->
          rs = [Printed ("CONSOLE: " ++ text)%string])
      /\ (navigated (map summary (t1 ++ [r])) = true ->
          rs = [Printed ("CONSOLE: " ++ text)%string]))
  /\ (forall m rs, In (Dialog m, rs) (emitted r) -> rs = [] \/ rs = [Accepted]).
Proof.
  intros Ht.
  pose proof (every_call _ _ _ add_client_script (fun _ => console_check)
                ltac:(vm_compute; reflexivity) E _ _ _
                (log_split AddClient.run E t1 r t2 Ht)) as K.
  unfold console_check in K.
  apply andb_true_iff in K. destruct K as [K K3].
  apply andb_true_iff in K. destruct K as [K1 K2].
  apply same_callbacks_either in K1, K2.
  split.
  - intros text rs Hin.
    pose proof (reactions _ _ _ add_client_script E t1 r t2 _ _ Ht Hin) as Hrs.
    unfold dispatch in Hrs. simpl event_name in Hrs.
    assert (Hyes : handlers_for "console" (registered (map summary t1)) = [PrintConsole]
                   -> rs = [Printed ("CONSOLE: " ++ text)%string]).
    { intros Hc. rewrite Hc in Hrs. exact Hrs. }
    split; [|split].
    + destruct K1 as [K1|K1]; [left; rewrite K1 in Hrs; exact Hrs | right; auto].
    + intros Hon. apply Hyes. apply mem_In in Hon. rewrite Hon in K3.
      apply same_callbacks_eq. exact K3.
    + intros Hnav. apply Hyes. rewrite map_app in Hnav. simpl in Hnav.
      rewrite Hnav, orb_true_r in K3. apply same_callbacks_eq. exact K3.
  - intros m rs Hin.
    pose proof (reactions _ _ _ add_client_script E t1 r t2 _ _ Ht Hin) as Hrs.
    unfold dispatch in Hrs. simpl event_name in Hrs.
    destruct K2 as [K2|K2]; rewrite K2 in Hrs; auto.
Qed.

(** The page logs "saved" during the click on "Salvar" (call number 8). *)
Lemma X1_console_messages_witness :
  let t := trace (final AddClient.run (console_at 8 "saved")) in
  let r := nth 8 t (mkRecord Close [] false) in
  snd (hd (Dialog "none", []) (emitted r)) = [Printed "CONSOLE: saved"].
Proof.
  intros t r.
  assert (Ht : t = firstn 8 t ++ r :: skipn 9 t) by (vm_compute; reflexivity).
  destruct (X1_console_messages_printed (console_at 8 "saved") _ _ _ Ht) as [H _].
  destruct (H "saved" (snd (hd (Dialog "none", []) (emitted r)))) as (_ & _ & G).
  - vm_compute. left. reflexivity.
  - apply G. vm_compute. reflexivity.
Defined.

(** ** How [run] ends *)

(** X2.  [run] returns normally exactly when every call it made returned,
    the final browser.close() included: the [finally] block does not
    swallow an exception of the body, and an exception of browser.close()
    itself makes a run fail whose body succeeded. *)
Theorem X2_returns_iff_no_call_raised E :
  result AddClient.run E = forallb snd (log AddClient.run E)
  /\ result VerifyDevolution.run E = forallb snd (log VerifyDevolution.run E).
Proof.
  split.
  - apply eqb_prop.
    apply (every_run _ _ _ add_client_script
             (fun b t => Bool.eqb b (forallb snd t))).
    vm_compute. reflexivity.
  - apply eqb_prop.
    apply (every_run _ _ _ verify_devolution_script
             (fun b t => Bool.eqb b (forallb snd t))).
    vm_compute. reflexivity.
Qed.

Section FailFast.

Variable S : env -> M unit.
Variables setup body : list op.
Hypothesis S_script : forall E st, S E st = script E setup body st.
Hypothesis checked :
  forallb (fun r => forallb (fun s => fail_fast_check (fst (fst s)) (snd (fst s)) (snd s))
                            (splits (snd r)))
          (runs setup body) = true.
Hypothesis checked_place :
  forallb (fun r => forallb (fun s => fail_place_check setup body
                                        (fst (fst s)) (snd (fst s)) (snd s))
                            (splits (snd r)))
          (runs setup body) = true.

Lemma fail_fast E t1 o t2 :
  log S E = t1 ++ (o, false) :: t2 ->
  (o = Close -> t2 = [])
  /\ (o <> Close ->
      all_succeed t1 /\ (t2 = [] \/ exists b, t2 = [(Close, b)])).
Proof.
  intros Hlog.
  pose proof (every_call S setup body S_script (fun _ => fail_fast_check)
                checked E _ _ _ Hlog) as K.
  unfold fail_fast_check in K. cbn [fst snd negb implb] in K.
  split.
  - intros ->. simpl in K. destruct t2; [reflexivity | discriminate].
  - intros Ho. assert (Hc : is_close o = false) by (destruct o; auto; contradiction).
    rewrite Hc in K. apply andb_true_iff in K. destruct K as [K1 K2].
    split; [apply forallb_all_succeed, K1|].
    destruct t2 as [|[o' b] t3]; [left; reflexivity|].
    destruct o'; try discriminate. destruct t3; [|discriminate].
    right. exists b. reflexivity.
Qed.

Lemma in_ops_true o l : In o l -> in_ops o l = true.
Proof.
  intros H. unfold in_ops. destruct (in_dec op_eq_dec o l); [reflexivity | contradiction].
Qed.

(** Where the failure happens decides what follows: nothing after a
    statement before the [try] block, the final close after a statement of
    its body. *)
Lemma fail_place E t1 o t2 :
  log S E = t1 ++ (o, false) :: t2 ->
  (In o setup -> t2 = [])
  /\ (In o body -> exists b, t2 = [(Close, b)]).
Proof.
  intros Hlog.
  pose proof (every_call S setup body S_script (fun _ => fail_place_check setup body)
                checked_place E _ _ _ Hlog) as K.
  unfold fail_place_check in K. cbn [fst snd negb implb] in K.
  apply andb_true_iff in K. destruct K as [K1 K2].
  split; intros Ho; apply in_ops_true in Ho.
  - rewrite Ho in K1. cbn [implb] in K1. destruct t2; [reflexivity | discriminate].
  - rewrite Ho in K2. cbn [implb] in K2.
    destruct t2 as [|[o' b] t3]; [discriminate|].
    destruct o'; try discriminate. destruct t3; [|discriminate].
    exists b. reflexivity.
Qed.

End FailFast.

(** X3.  Both scripts stop at the first call that raises: every call before
    it returned, and nothing of the script runs after it except the final
    browser.close() - nothing at all when the failing call is a statement
    before the [try] block, exactly the final browser.close() when it is a
    statement of the [try] body; when browser.close() raises, it is the
    last call. *)
Theorem X3_first_failure_ends_the_script E t1 o t2 :
  (log AddClient.run E = t1 ++ (o, false) :: t2
   \/ log VerifyDevolution.run E = t1 ++ (o, false) :: t2 ->
   (o = Close -> t2 = [])
   /\ (o <> Close ->
       all_succeed t1 /\ (t2 = [] \/ exists b, t2 = [(Close, b)])))
  /\ (log AddClient.run E = t1 ++ (o, false) :: t2 ->
      (In o AddClientOps.setup -> t2 = [])
      /\ (In o AddClientOps.body -> exists b, t2 = [(Close, b)]))
  /\ (log VerifyDevolution.run E = t1 ++ (o, false) :: t2 ->
      (In o VerifyDevolutionOps.setup -> t2 = [])
      /\ (In o VerifyDevolutionOps.body -> exists b, t2 = [(Close, b)])).
Proof.
  split; [|split].
  - intros [H|H].
    + apply (fail_fast _ _ _ add_client_script ltac:(vm_compute; reflexivity)
               E _ _ _ H).
    + apply (fail_fast _ _ _ verify_devolution_script ltac:(vm_compute; reflexivity)
               E _ _ _ H).
  - apply (fail_place _ _ _ add_client_script ltac:(vm_compute; reflexivity)).
  - apply (fail_place _ _ _ verify_devolution_script ltac:(vm_compute; reflexivity)).
Qed.

(** The click on "Adicionar Peça" (call number 9 of the devolution script)
    raises; the registration of the console listener of add_client.py (call
    number 2) raises. *)
Lemma X3_first_failure_witness :
  let t := log VerifyDevolution.run (fails_at 9) in
  let u := log AddClient.run (fails_at 2) in
  all_succeed (firstn 9 t)
  /\ (skipn 10 t = [] \/ exists b, skipn 10 t = [(Close, b)])
  /\ (exists b, skipn 10 t = [(Close, b)])
  /\ skipn 3 u = [].
Proof.
  intros t u.
  destruct (X3_first_failure_ends_the_script (fails_at 9)
              (firstn 9 t) adicionar_peca (skipn 10 t)) as (H1 & _ & H3).
  destruct (X3_first_failure_ends_the_script (fails_at 2)
              (firstn 2 u) (On "console" PrintConsole) (skipn 3 u)) as (_ & G2 & _).
  assert (Ht : log VerifyDevolution.run (fails_at 9)
               = firstn 9 t ++ (adicionar_peca, false) :: skipn 10 t)
    by (vm_compute; reflexivity).
  assert (Hu : log AddClient.run (fails_at 2)
               = firstn 2 u ++ (On "console" PrintConsole, false) :: skipn 3 u)
    by (vm_compute; reflexivity).
  destruct (H1 (or_intror Ht)) as [_ A]. destruct (A ltac:(discriminate)) as [A1 A2].
  split; [exact A1|]. split; [exact A2|]. split.
  - apply (proj2 (H3 Ht)). simpl. tauto.
  - apply (proj1 (G2 Hu)). simpl. tauto.
Defined.

(** ** One headless browser, one page *)

Lemma starts_headless_spec t : starts_headless t = true -> headless_start t.
Proof.
  unfold starts_headless, headless_start.
  destruct t as [|[o b] t']; [discriminate|].
  destruct o; try discriminate. destruct headless; [|discriminate].
  intros H. apply andb_true_iff in H. destruct H as [H1 H2].
  exists b, t'. split; [reflexivity|]. split; [|split].
  - intros c Hc. rewrite forallb_forall in H1. specialize (H1 c Hc).
    destruct (is_launch (fst c)); [discriminate | reflexivity].
  - intros ->. destruct t'; [reflexivity | discriminate].
  - intros ->. destruct t' as [|[o' b'] t'']; [discriminate|].
    destruct o'; try discriminate. exists b', t''. split; [reflexivity|].
    intros c Hc. rewrite forallb_forall in H2. specialize (H2 c Hc).
    destruct (is_new_page (fst c)); [discriminate | reflexivity].
Qed.

(** X4.  Every execution of either script begins by launching one browser,
    headless, and never launches another; if the launch raises nothing else
    is called, otherwise the next call creates the page, and no second page
    is ever created. *)
Theorem X4_one_headless_browser_one_page E :
  headless_start (log AddClient.run E)
  /\ headless_start (log VerifyDevolution.run E).
Proof.
  split; apply starts_headless_spec.
  - apply (every_run _ _ _ add_client_script (fun _ => starts_headless)).
    vm_compute. reflexivity.
  - apply (every_run _ _ _ verify_devolution_script (fun _ => starts_headless)).
    vm_compute. reflexivity.
Qed.

(** ** Navigation *)

Lemma goes_to_spec urls url b :
  goes_to urls (Goto url, b) = true -> In url urls.
Proof.
  unfold goes_to. simpl. intros H. apply existsb_exists in H.
  destruct H as (u & Hu & He). apply String.eqb_eq in He. subst. exact Hu.
Qed.

(** X5.  The scripts navigate only under http://localhost:5173/pages/:
    add_client.py to cadastro-pessoas.html only, the devolution script to
    cadastro-pessoas.html and cadastro.html; and cadastro.html is opened
    only after the client form has been filled and submitted with a
    successful click on "Salvar" and the 2000 ms pause has elapsed. *)
Theorem X5_navigation_targets E url b :
  (In (Goto url, b) (log AddClient.run E) -> url = client_page)
  /\ (In (Goto url, b) (log VerifyDevolution.run E) ->
      (url = client_page \/ url = devolution_page)
      /\ String.prefix pages_root url = true)
  /\ (forall t1 t2,
        log VerifyDevolution.run E = t1 ++ (Goto devolution_page, b) :: t2 ->
        In (salvar, true) t1
        /\ (exists t0, t1 = t0 ++ [(WaitForTimeout 2000, true)])
        /\ inputs_of t1 = client_form).
Proof.
  split; [|split].
  - intros H.
    apply (every_logged _ _ _ add_client_script (goes_to [client_page])
             ltac:(vm_compute; reflexivity) E) in H.
    apply goes_to_spec in H. destruct H as [H|[]]. symmetry. exact H.
  - intros H.
    apply (every_logged _ _ _ verify_devolution_script
             (goes_to [client_page; devolution_page])
             ltac:(vm_compute; reflexivity) E) in H.
    apply goes_to_spec in H.
    destruct H as [H|[H|[]]]; subst url; split; auto.
  - intros t1 t2 Hlog.
    pose proof (every_call _ _ _ verify_devolution_script
                  (fun _ => devolution_page_check)
                  ltac:(vm_compute; reflexivity) E _ _ _ Hlog) as K.
    unfold devolution_page_check in K. cbn [fst] in K.
    rewrite op_eqb_refl in K. cbn [implb] in K.
    apply andb_true_iff in K. destruct K as [K K3].
    apply andb_true_iff in K. destruct K as [K1 K2].
    split; [apply mem_In, K1|]. split; [apply ends_with_spec, K2|].
    apply same_eq, K3.
Qed.

(** The execution in which nothing raises: cadastro.html is opened by call
    number 7. *)
Lemma X5_navigation_witness :
  let t := log VerifyDevolution.run all_ok in
  client_page = client_page
  /\ String.prefix pages_root devolution_page = true
  /\ In (salvar, true) (firstn 7 t)
  /\ inputs_of (firstn 7 t) = client_form.
Proof.
  intros t.
  destruct (X5_navigation_targets all_ok client_page true) as (H1 & _ & _).
  destruct (X5_navigation_targets all_ok devolution_page true) as (_ & H2 & H3).
  split; [apply H1; vm_compute; tauto|].
  split; [apply H2; vm_compute; tauto|].
  destruct (H3 (firstn 7 t) (skipn 8 t)) as (A & _ & B);
    [vm_compute; reflexivity | split; assumption].
Defined.

(** ** The forms as submitted *)

Lemma filled_name v : filled_with "Nome Completo" (Fill (GetByLabel Page "Nome Completo") v) = Some v.
Proof. reflexivity. Qed.

Lemma selected_client w :
  selected_in "Cliente" (SelectOption (GetByLabel Page "Cliente") w) = Some w.
Proof. reflexivity. Qed.

(** X6.  In both scripts, when the button "Salvar" of the client form is
    clicked, the inputs made so far are exactly the name "Test Client" typed
    into "Nome Completo" and the option "Cliente" chosen in "Tipo", in that
    order, both successful; and in the devolution script the client chosen
    in the field "Cliente" is the name typed into "Nome Completo". *)
Theorem X6_client_form_as_submitted E :
  (forall t1 b t2,
      log AddClient.run E = t1 ++ (salvar, b) :: t2
      \/ log VerifyDevolution.run E = t1 ++ (salvar, b) :: t2 ->
      inputs_of t1 = client_form)
  /\ (forall v a w b,
        In (Fill (GetByLabel Page "Nome Completo") v, a)
           (log VerifyDevolution.run E) ->
        In (SelectOption (GetByLabel Page "Cliente") w, b)
           (log VerifyDevolution.run E) ->
        v = w).
Proof.
  split.
  - intros t1 b t2 [H|H].
    + pose proof (every_call _ _ _ add_client_script (fun _ => client_form_check)
                    ltac:(vm_compute; reflexivity) E _ _ _ H) as K.
      unfold client_form_check in K. cbn [fst] in K. rewrite op_eqb_refl in K.
      apply same_eq, K.
    + pose proof (every_call _ _ _ verify_devolution_script
                    (fun _ => client_form_check)
                    ltac:(vm_compute; reflexivity) E _ _ _ H) as K.
      unfold client_form_check in K. cbn [fst] in K. rewrite op_eqb_refl in K.
      apply same_eq, K.
  - intros v a w b Hv Hw.
    pose proof (every_run _ _ _ verify_devolution_script (fun _ => same_client)
                  ltac:(vm_compute; reflexivity) E) as K.
    unfold same_client in K. rewrite forallb_forall in K.
    specialize (K _ Hv). rewrite forallb_forall in K. specialize (K _ Hw).
    cbn [fst] in K. rewrite filled_name, selected_client in K.
    apply String.eqb_eq, K.
Qed.

(** The execution in which nothing raises: "Salvar" is call number 5 of the
    devolution script. *)
Lemma X6_client_form_witness :
  inputs_of (firstn 5 (log VerifyDevolution.run all_ok)) = client_form
  /\ "Test Client"%string = "Test Client"%string.
Proof.
  destruct (X6_client_form_as_submitted all_ok) as [H1 H2].
  split.
  - apply (H1 _ true (skipn 6 (log VerifyDevolution.run all_ok))).
    right. vm_compute. reflexivity.
  - apply (H2 _ true _ true); vm_compute; tauto.
Defined.

(** X7.  When the devolution script clicks "Salvar Devolução", the inputs
    it has made are exactly those of the client form followed by the eleven
    of the devolution form - code, quantity and description of part rows 0
    and 1, the client, the sale request "REQ-123", the action "Alterada",
    the sale date and the devolution date - each made once, in that order
    and successfully; no input follows the click. *)
Theorem X7_devolution_form_as_submitted E t1 b t2 :
  log VerifyDevolution.run E = t1 ++ (salvar_devolucao, b) :: t2 ->
  inputs_of t1 = client_form ++ devolution_form
  /\ forall c, In c t2 -> is_input (fst c) = false.
Proof.
  intros Hlog.
  pose proof (every_call _ _ _ verify_devolution_script
                (fun _ => devolution_form_check)
                ltac:(vm_compute; reflexivity) E _ _ _ Hlog) as K.
  unfold devolution_form_check in K. cbn [fst] in K. rewrite op_eqb_refl in K.
  cbn [implb] in K. apply andb_true_iff in K. destruct K as [K1 K2].
  split; [apply same_eq, K1|].
  intros c Hc. rewrite forallb_forall in K2. specialize (K2 c Hc).
  destruct (is_input (fst c)); [discriminate | reflexivity].
Qed.

(** The execution in which the click on "Salvar Devolução" (call number 21)
    raises. *)
Lemma X7_devolution_form_witness :
  inputs_of (firstn 21 (log VerifyDevolution.run (fails_at 21)))
  = client_form ++ devolution_form.
Proof.
  apply (X7_devolution_form_as_submitted (fails_at 21) _ false
           (skipn 22 (log VerifyDevolution.run (fails_at 21)))).
  vm_compute. reflexivity.
Defined.

(** ** What the outcome does not depend on *)

(** X8.  Neither script checks what the page emits: whenever none of its
    calls raises, add_client.py makes its 11 calls and the devolution script
    its 26 and [run] returns normally, whatever console messages and dialogs
    the page produces - for add_client.py also when no dialog ever opens
    after the click on "Salvar". *)
Theorem X8_outcome_ignores_page_events E :
  (forall k o, raises E k o = false) ->
  (result AddClient.run E = true
   /\ map fst (log AddClient.run E)
      = AddClientOps.setup ++ AddClientOps.body ++ [Close])
  /\ (result VerifyDevolution.run E = true
      /\ map fst (log VerifyDevolution.run E)
         = VerifyDevolutionOps.setup ++ VerifyDevolutionOps.body ++ [Close]).
Proof.
  intros H.
  assert (Hr : forall k o, raises E k o = raises all_ok k o)
    by (intros k o; rewrite H; reflexivity).
  split.
  - pose proof (content_independent _ _ _ add_client_script E all_ok Hr) as Hlog.
    pose proof (every_run _ _ _ add_client_script
                  (fun b t => Bool.eqb b (forallb snd t))
                  ltac:(vm_compute; reflexivity) E) as K.
    apply eqb_prop in K. rewrite K, Hlog. split; vm_compute; reflexivity.
  - pose proof (content_independent _ _ _ verify_devolution_script E all_ok Hr)
      as Hlog.
    pose proof (every_run _ _ _ verify_devolution_script
                  (fun b t => Bool.eqb b (forallb snd t))
                  ltac:(vm_compute; reflexivity) E) as K.
    apply eqb_prop in K. rewrite K, Hlog. split; vm_compute; reflexivity.
Qed.

(** A page that opens a dialog during the click on "Salvar" of
    add_client.py, and one that stays silent. *)
Lemma X8_outcome_witness :
  result AddClient.run (dialog_at 8 "Cadastro salvo") = true
  /\ result AddClient.run all_ok = true
  /\ result VerifyDevolution.run (console_at 3 "typing") = true.
Proof.
  split; [|split].
  - apply (X8_outcome_ignores_page_events (dialog_at 8 "Cadastro salvo")).
    intros k o. reflexivity.
  - apply (X8_outcome_ignores_page_events all_ok). intros k o. reflexivity.
  - apply (X8_outcome_ignores_page_events (console_at 3 "typing")).
    intros k o. reflexivity.
Defined.

(** ** Waiting for the menu *)

(** X9.  add_client.py touches no form element before its assertion that
    the navigation bar #navbarNav is visible has passed; the devolution
    script does the same on the devolution page (every input and click made
    after opening cadastro.html follows that assertion), while it fills and
    submits the client form without such a wait. *)
Theorem X9_menu_visible_before_interaction E t1 x t2 :
  is_interaction (fst x) = true ->
  (log AddClient.run E = t1 ++ x :: t2 -> In (ToBeVisible navbar, true) t1)
  /\ (log VerifyDevolution.run E = t1 ++ x :: t2 ->
      In (Goto devolution_page, true) t1 -> In (ToBeVisible navbar, true) t1)
  /\ (log VerifyDevolution.run E = t1 ++ x :: t2 ->
      ~ In (Goto devolution_page, true) t1 ->
      forall b, ~ In (ToBeVisible navbar, b) t1).
Proof.
  intros Hx. split; [|split].
  - intros Hlog.
    pose proof (every_call _ _ _ add_client_script
                  (fun _ => menu_check (fun _ => true))
                  ltac:(vm_compute; reflexivity) E _ _ _ Hlog) as K.
    unfold menu_check in K. rewrite Hx in K. apply mem_In. exact K.
  - intros Hlog Hg.
    pose proof (every_call _ _ _ verify_devolution_script
                  (fun _ => menu_check (mem (Goto devolution_page, true)))
                  ltac:(vm_compute; reflexivity) E _ _ _ Hlog) as K.
    unfold menu_check in K. apply mem_In in Hg. rewrite Hx, Hg in K.
    apply mem_In. exact K.
  - intros Hlog Hg b Hin.
    pose proof (every_call _ _ _ verify_devolution_script
                  (fun _ t1 x _ =>
                     implb (mem (ToBeVisible navbar, true) t1
                            || mem (ToBeVisible navbar, false) t1)
                           (mem (Goto devolution_page, true) t1))
                  ltac:(vm_compute; reflexivity) E _ _ _ Hlog) as K.
    cbv beta in K. apply mem_In in Hin.
    destruct b; rewrite Hin in K; rewrite ?orb_true_r in K; cbn [orb implb] in K;
      apply Hg, mem_In, K.
Qed.

(** The execution in which nothing raises: the fill of "Nome Completo" is
    call number 6 of add_client.py and number 3 of the devolution script,
    whose click on "Adicionar Peça" is call number 9. *)
Lemma X9_menu_visible_witness :
  In (ToBeVisible navbar, true) (firstn 6 (log AddClient.run all_ok))
  /\ In (ToBeVisible navbar, true) (firstn 9 (log VerifyDevolution.run all_ok))
  /\ ~ In (ToBeVisible navbar, true) (firstn 3 (log VerifyDevolution.run all_ok)).
Proof.
  split; [|split].
  - apply (proj1 (X9_menu_visible_before_interaction all_ok
                    (firstn 6 (log AddClient.run all_ok))
                    (Fill (GetByLabel Page "Nome Completo") "Test Client", true)
                    (skipn 7 (log AddClient.run all_ok)) eq_refl)).
    vm_compute. reflexivity.
  - apply (proj1 (proj2 (X9_menu_visible_before_interaction all_ok
                    (firstn 9 (log VerifyDevolution.run all_ok))
                    (adicionar_peca, true)
                    (skipn 10 (log VerifyDevolution.run all_ok)) eq_refl))).
    + vm_compute. reflexivity.
    + vm_compute. tauto.
  - apply (proj2 (proj2 (X9_menu_visible_before_interaction all_ok
                    (firstn 3 (log VerifyDevolution.run all_ok))
                    (Fill (GetByLabel Page "Nome Completo") "Test Client", true)
                    (skipn 4 (log VerifyDevolution.run all_ok)) eq_refl))).
    + vm_compute. reflexivity.
    + vm_compute. intros [H|[H|[H|[]]]]; discriminate H.
Defined.
